(** * certbot-dns-hostinger: the Hostinger DNS-01 authenticator

    A shallow embedding of [certbot_dns_hostinger/_internal/dns_hostinger.py]
    (classes [Authenticator] and [_HostingerClient]) together with the
    properties of zone resolution, relative naming, conflict removal and
    error propagation that the design document states about it.

    Layout:
    - [Py]: the Python built-ins the module relies on ([str.split],
      [str.join], [str.endswith], slicing, [str()] of an int);
    - the data passed to and from the Hostinger API client;
    - a small monad for Python statements: a world that is threaded through,
      exceptions that keep the world reached so far, and a write-only trace
      of log records and API requests;
    - the methods of [_HostingerClient] and [Authenticator];
    - a stateful in-memory provider, used where a property speaks about the
      records that end up in the zone;
    - the theorems. *)

From Stdlib Require Import Ascii DecimalString.
From stdpp Require Import base numbers list sets strings.

Local Open Scope Z_scope.
Local Open Scope list_scope.
Local Open Scope stdpp_scope.

(** ** Python built-ins *)

Module Py.

(** [len(s)] *)
Definition len (s : string) : Z := Z.of_nat (String.length s).

(** [s.split(sep)] for a one-character separator: the only separator the
    module uses is ["."].  The result is never empty: [''.split('.')] is
    [['']]. *)
Fixpoint str_split (sep : ascii) (s : string) : list string :=
  match s with
  | EmptyString => [""]
  | String c s' =>
      if Ascii.eqb c sep then "" :: str_split sep s'
      else match str_split sep s' with
           | p :: ps => String c p :: ps
           | [] => [String c ""]
           end
  end.

(** [sep.join(parts)] *)
Definition str_join (sep : string) (parts : list string) : string :=
  String.concat sep parts.

(** [s.endswith(suffix)]: some tail of [s] is [suffix]. *)
Fixpoint str_endswith (s suffix : string) : bool :=
  String.eqb s suffix ||
  match s with
  | EmptyString => false
  | String _ s' => str_endswith s' suffix
  end.

(** Normalisation of one slice bound against a sequence of length [n]:
    a negative bound counts from the end, and the result is clamped to
    [0..n]. *)
Definition slice_bound (n i : Z) : nat :=
  Z.to_nat (if i <? 0 then Z.max 0 (n + i) else Z.min n i).

(** [s[:stop]] *)
Definition str_slice_to (s : string) (stop : Z) : string :=
  String.substring 0 (slice_bound (len s) stop) s.

(** [l[start:]] *)
Definition list_slice_from {A} (l : list A) (start : Z) : list A :=
  drop (slice_bound (Z.of_nat (length l)) start) l.

(** [str(n)] for an int. *)
Definition str_of_int (n : Z) : string :=
  NilZero.string_of_int (Z.to_int n).

(** Truth value of a list: [if l:] *)
Definition truthy {A} (l : list A) : bool :=
  match l with [] => false | _ :: _ => true end.

(** [c in s] for a character. *)
Fixpoint has_char (c : ascii) (s : string) : bool :=
  match s with
  | EmptyString => false
  | String c' s' => Ascii.eqb c' c || has_char c s'
  end.

End Py.

(** ** Data exchanged with the Hostinger API client *)

(** One entry of the list returned by [get_dns_records_v1]; the module reads
    its [name] and [type] attributes only. *)
Record DnsRecord := mkDnsRecord {
  rr_name : string;
  rr_type : string;
  rr_content : string;
  rr_ttl : Z;
}.

(** [DNSV1ZoneDestroyRequestFiltersInner(name=..., type=...)] *)
Record DNSV1ZoneDestroyRequestFiltersInner := mkFilter {
  flt_name : string;
  flt_type : string;
}.

(** [DNSV1ZoneDestroyRequest(filters=[...])] *)
Record DNSV1ZoneDestroyRequest := mkDestroy {
  filters : list DNSV1ZoneDestroyRequestFiltersInner;
}.

(** [DNSV1ZoneUpdateRequestZoneInnerRecordsInner(content=...)] *)
Record DNSV1ZoneUpdateRequestZoneInnerRecordsInner := mkContent {
  ri_content : string;
}.

(** [DNSV1ZoneUpdateRequestZoneInner(name=..., type=..., ttl=..., records=[...])] *)
Record DNSV1ZoneUpdateRequestZoneInner := mkZoneInner {
  zi_name : string;
  zi_type : string;
  zi_ttl : Z;
  zi_records : list DNSV1ZoneUpdateRequestZoneInnerRecordsInner;
}.

(** [DNSV1ZoneUpdateRequest(zone=[...], overwrite=...)] *)
Record DNSV1ZoneUpdateRequest := mkUpdate {
  upd_zone : list DNSV1ZoneUpdateRequestZoneInner;
  overwrite : bool;
}.

(** The [DNSZoneApi] object built by [_get_api_client].  It is never mutated,
    so it is represented by its identity (the rank of its construction) and
    the access token of its [Configuration]. *)
Record DNSZoneApi := mkApi {
  api_id : nat;
  access_token : string;
}.

(** A [_HostingerClient] object: the two attributes set by [__init__]. *)
Record HostingerClient := mkClient {
  api_token : string;
  _api_client : option DNSZoneApi;
}.

(** The three calls made on a [DNSZoneApi], with their arguments. *)
Inductive request :=
| get_dns_records_v1_call (domain : string)
| delete_dns_records_v1_call (domain : string) (rq : DNSV1ZoneDestroyRequest)
| update_dns_records_v1_call (domain : string) (rq : DNSV1ZoneUpdateRequest).

(** Exceptions.  [Exception] stands for whatever subclass of [Exception] the
    API client raises; [errors_Error] and [errors_PluginError] are certbot's
    [errors.Error] and [errors.PluginError]; the second argument of
    [errors_PluginError] is the [__cause__] set by [raise ... from e].
    [ReferenceError] is raised by the model when a method is called on an
    address that holds no [_HostingerClient]. *)
Inductive exn :=
| Exception (msg : string)
| ImportError (msg : string)
| ReferenceError (msg : string)
| errors_Error (msg : string)
| errors_PluginError (msg : string) (cause : exn).

(** [str(e)] *)
Definition str_of_exn (e : exn) : string :=
  match e with
  | Exception msg | ImportError msg | ReferenceError msg
  | errors_Error msg | errors_PluginError msg _ => msg
  end.

Definition is_ImportError (e : exn) : bool :=
  match e with ImportError _ => true | _ => false end.

Inductive outcome (A : Type) :=
| Return (x : A)
| Raise (e : exn).
Arguments Return {A} x.
Arguments Raise {A} e.

Inductive level := DEBUG | INFO | WARNING | ERROR.

(** What a run leaves behind for an observer: log records and the calls made
    on API clients, in program order. *)
Inductive event :=
| Log (lvl : level) (msg : string)
| Call (via : DNSZoneApi) (rq : request).

(** The DNS provider behind the API client: a state and the three remote
    procedures, each given the access token of the client that calls it. *)
Record Provider (P : Type) := mkProvider {
  get_dns_records_v1 : string -> string -> P -> outcome (list DnsRecord) * P;
  delete_dns_records_v1 :
    string -> string -> DNSV1ZoneDestroyRequest -> P -> outcome unit * P;
  update_dns_records_v1 :
    string -> string -> DNSV1ZoneUpdateRequest -> P -> outcome unit * P;
}.
Arguments get_dns_records_v1 {P} _ _ _ _.
Arguments delete_dns_records_v1 {P} _ _ _ _ _.
Arguments update_dns_records_v1 {P} _ _ _ _ _.

(** ** The world and the statement monad *)

Section World.
Context {P : Type}.

Record World := mkWorld {
  remote : P;                       (* the provider's state *)
  hostinger_api_installed : bool;   (* does [import hostinger_api] succeed *)
  heap : list HostingerClient;      (* [_HostingerClient] objects by address *)
  api_built : nat;                  (* [DNSZoneApi] objects constructed so far *)
}.

Definition set_remote (p : P) (w : World) : World :=
  mkWorld p (hostinger_api_installed w) (heap w) (api_built w).
Definition set_heap (h : list HostingerClient) (w : World) : World :=
  mkWorld (remote w) (hostinger_api_installed w) h (api_built w).
Definition set_api_built (n : nat) (w : World) : World :=
  mkWorld (remote w) (hostinger_api_installed w) (heap w) n.

(** A statement: from a world to an outcome, the world reached and the
    events emitted on the way.  An exception keeps both. *)
Definition M (A : Type) : Type := World -> outcome A * World * list event.

Definition ret {A} (x : A) : M A := fun w => (Return x, w, []).

Definition raise {A} (e : exn) : M A := fun w => (Raise e, w, []).

Definition bind {A B} (m : M A) (k : A -> M B) : M B := fun w =>
  match m w with
  | (Return x, w1, t1) => let '(r, w2, t2) := k x w1 in (r, w2, t1 ++ t2)
  | (Raise e, w1, t1) => (Raise e, w1, t1)
  end.

(** [try: body  except Exception as e: handler] *)
Definition try_except {A} (body : M A) (handler : exn -> M A) : M A := fun w =>
  match body w with
  | (Raise e, w1, t1) => let '(r, w2, t2) := handler e w1 in (r, w2, t1 ++ t2)
  | finished => finished
  end.

(** [logger.debug], [logger.info], [logger.warning]; [logger.exception]
    logs at level [ERROR]. *)
Definition logger (lvl : level) (msg : string) : M unit :=
  fun w => (Return tt, w, [Log lvl msg]).

Definition result {A} (x : outcome A * World * list event) : outcome A := x.1.1.
Definition world_after {A} (x : outcome A * World * list event) : World := x.1.2.
Definition events {A} (x : outcome A * World * list event) : list event := x.2.

End World.
Arguments World : clear implicits.
Arguments M : clear implicits.

Declare Scope py_scope.
Delimit Scope py_scope with py.
Notation "x <- m ;; k" := (bind m (fun x => k))
  (at level 100, m at next level, k at level 200, right associativity) : py_scope.
Notation "m ;; k" := (bind m (fun _ => k))
  (at level 100, k at level 200, right associativity) : py_scope.
Local Open Scope py_scope.

(** The API requests among the events of a run, and the log records. *)
Definition calls (t : list event) : list (DNSZoneApi * request) :=
  omap (fun e => match e with Call a rq => Some (a, rq) | Log _ _ => None end) t.

Definition logged (t : list event) : list (level * string) :=
  omap (fun e => match e with Log l m => Some (l, m) | Call _ _ => None end) t.

(** ** [_HostingerClient] *)

(** The relative record name: the [if]/[elif]/[else] block that
    [add_txt_record] and [del_txt_record] both carry, with [record_name] and
    [root_domain] as its free variables and [subdomain] as its result. *)
Definition subdomain_of (record_name root_domain : string) : string :=
  if Py.str_endswith record_name ("." +:+ root_domain) then
    Py.str_slice_to record_name (- Py.len ("." +:+ root_domain))
  else if String.eqb record_name root_domain then
    "@"
  else
    record_name.

(** [_HostingerClient._get_root_domain]: the method reads nothing but its
    argument, so it is given as the value it returns together with the log
    record it emits. *)
Definition _get_root_domain (domain : string) : string * list event :=
  let parts := Py.str_split "." domain in
  if 2 <=? Z.of_nat (length parts) then
    (* Return last two parts (domain.tld) *)
    let root := Py.str_join "." (Py.list_slice_from parts (-2)) in
    (root, [Log DEBUG ("Extracted root domain: " +:+ root +:+ " from " +:+ domain)])
  else (domain, []).

Section Client.
Context {P : Type} (provider : Provider P).

(** Attribute access on [self]. *)
Definition load (self : nat) : M P HostingerClient := fun w =>
  match heap w !! self with
  | Some this => (Return this, w, [])
  | None => (Raise (ReferenceError "no such object"), w, [])
  end.

(** Attribute assignment on [self]. *)
Definition store (self : nat) (this : HostingerClient) : M P unit := fun w =>
  (Return tt, set_heap (<[self := this]> (heap w)) w, []).

(** [from hostinger_api import ...] and [from hostinger_api.models import ...] *)
Definition import_hostinger_api : M P unit := fun w =>
  if hostinger_api_installed w then (Return tt, w, [])
  else (Raise (ImportError "No module named 'hostinger_api'"), w, []).

(** [DNSZoneApi(ApiClient(Configuration(access_token=token)))] *)
Definition new_DNSZoneApi (token : string) : M P DNSZoneApi := fun w =>
  (Return (mkApi (api_built w) token), set_api_built (S (api_built w)) w, []).

(** A call of a method that only computes and logs. *)
Definition traced {A} (x : A * list event) : M P A := fun w => (Return x.1, w, x.2).

(** A call on the API client: the provider answers and moves on. *)
Definition call {A} (via : DNSZoneApi) (rq : request)
    (rpc : string -> P -> outcome A * P) : M P A := fun w =>
  let '(r, p) := rpc (access_token via) (remote w) in
  (r, set_remote p w, [Call via rq]).

(** [_HostingerClient.__init__]: allocates the object and returns its
    address. *)
Definition _HostingerClient (api_token : string) : M P nat :=
  logger INFO "Initializing Hostinger client" ;;
  self <- (fun w => (Return (length (heap w)),
                     set_heap (heap w ++ [mkClient api_token None]) w, [])) ;;
  logger INFO "Hostinger client initialized" ;;
  ret self.

(** [_HostingerClient._get_api_client].  The method ends with
    [return self._api_client]; here each branch hands over the value that
    attribute holds at that point. *)
Definition _get_api_client (self : nat) : M P DNSZoneApi :=
  this <- load self ;;
  api_client <-
    match _api_client this with
    | None =>
        try_except
          (logger INFO "Initializing Hostinger API client" ;;
           import_hostinger_api ;;
           api_client <- new_DNSZoneApi (api_token this) ;;
           store self (mkClient (api_token this) (Some api_client)) ;;
           logger INFO "Hostinger API client initialized" ;;
           ret api_client)
          (fun e =>
             if is_ImportError e then
               logger ERROR "Encountered error initializing Hostinger API client" ;;
               raise (errors_PluginError
                 "Could not import hostinger-api. Please install it with: pip install hostinger-api"
                 e)
             else raise e)
    | Some api_client => ret api_client
    end ;;
  logger INFO "Hostinger API client obtained" ;;
  ret api_client.

(** [_HostingerClient.add_txt_record] *)
Definition add_txt_record (self : nat)
    (domain record_name record_content : string) (ttl : Z) : M P unit :=
  logger INFO "Adding TXT record" ;;
  try_except
    (api_client <- _get_api_client self ;;
     root_domain <- traced (_get_root_domain domain) ;;
     let subdomain := subdomain_of record_name root_domain in
     logger DEBUG ("Using root domain: " +:+ root_domain +:+
                   ", subdomain: " +:+ subdomain) ;;
     import_hostinger_api ;;
     (* Step 1: GET *)
     zone_records <- call api_client (get_dns_records_v1_call root_domain)
                       (fun tok => get_dns_records_v1 provider tok root_domain) ;;
     let existing_acme :=
       List.filter (fun z => String.eqb (rr_name z) subdomain &&
                             String.eqb (rr_type z) "TXT") zone_records in
     (if Py.truthy existing_acme then
        logger INFO ("Found " +:+ Py.str_of_int (Z.of_nat (length existing_acme)) +:+
                     " existing " +:+ subdomain +:+ " TXT record(s)")
      else ret tt) ;;
     (* Step 2: DELETE *)
     (if Py.truthy existing_acme then
        try_except
          (let delete_filter := mkFilter subdomain "TXT" in
           let delete_request := mkDestroy [delete_filter] in
           call api_client (delete_dns_records_v1_call root_domain delete_request)
             (fun tok => delete_dns_records_v1 provider tok root_domain delete_request) ;;
           logger INFO ("Deleted existing " +:+ subdomain +:+
                        " TXT record(s) from " +:+ root_domain))
          (fun delete_error =>
             logger WARNING ("Error deleting existing records: " +:+
                             str_of_exn delete_error))
      else ret tt) ;;
     (* Step 3: ADD *)
     let new_zone := mkZoneInner subdomain "TXT" ttl [mkContent record_content] in
     let update_request := mkUpdate [new_zone] false in
     call api_client (update_dns_records_v1_call root_domain update_request)
       (fun tok => update_dns_records_v1 provider tok root_domain update_request) ;;
     logger INFO ("Successfully added TXT record " +:+ subdomain +:+ " to " +:+
                  root_domain +:+ " zone"))
    (fun e =>
       logger ERROR "Encountered error adding TXT record" ;;
       let msg := "Encountered error adding TXT record: " +:+ str_of_exn e in
       raise (errors_PluginError msg e)).

(** [_HostingerClient.del_txt_record] *)
Definition del_txt_record (self : nat)
    (domain record_name _record_content : string) : M P unit :=
  logger INFO "Deleting TXT record" ;;
  try_except
    (api_client <- _get_api_client self ;;
     root_domain <- traced (_get_root_domain domain) ;;
     let subdomain := subdomain_of record_name root_domain in
     logger DEBUG ("Deleting from root domain: " +:+ root_domain +:+
                   ", subdomain: " +:+ subdomain) ;;
     import_hostinger_api ;;
     let delete_filter := mkFilter subdomain "TXT" in
     let delete_request := mkDestroy [delete_filter] in
     call api_client (delete_dns_records_v1_call root_domain delete_request)
       (fun tok => delete_dns_records_v1 provider tok root_domain delete_request) ;;
     logger INFO ("Successfully deleted TXT record " +:+ subdomain +:+ " from " +:+
                  root_domain +:+ " zone"))
    (fun e =>
       logger WARNING ("Encountered error deleting TXT record: " +:+ str_of_exn e)).

(** ** [Authenticator] *)

(** [CredentialsConfiguration]: what [conf] answers for a key. *)
Record CredentialsConfiguration := mkCredentials {
  conf : string -> string;
}.

(** The attributes of an [Authenticator] the challenge hooks read. *)
Record Authenticator := mkAuthenticator {
  credentials : option CredentialsConfiguration;
  auth_ttl : Z;
}.

(** [Authenticator.__init__]: the class attribute [ttl = 60] and
    [self.credentials = None]. *)
Definition Authenticator_init : Authenticator := mkAuthenticator None 60.

(** [Authenticator._get_hostinger_client] *)
Definition _get_hostinger_client (self : Authenticator) : M P nat :=
  logger INFO "Getting Hostinger client" ;;
  match credentials self with
  | None => raise (errors_Error "Plugin has not been prepared.")
  | Some creds => _HostingerClient (conf creds "api-token")
  end.

(** [Authenticator._perform] *)
Definition _perform (self : Authenticator)
    (domain validation_name validation : string) : M P unit :=
  logger DEBUG ("Starting DNS challenge for domain: " +:+ domain) ;;
  logger DEBUG ("Validation name: " +:+ validation_name) ;;
  logger DEBUG ("Validation content: " +:+ validation) ;;
  logger DEBUG ("TTL: " +:+ Py.str_of_int (auth_ttl self)) ;;
  client <- _get_hostinger_client self ;;
  add_txt_record client domain validation_name validation (auth_ttl self) ;;
  logger INFO "DNS challenge performed successfully" ;;
  logger DEBUG ("DNS challenge completed for domain: " +:+ domain).

(** [Authenticator._cleanup] *)
Definition _cleanup (self : Authenticator)
    (domain validation_name validation : string) : M P unit :=
  logger DEBUG ("Starting DNS cleanup for domain: " +:+ domain) ;;
  logger DEBUG ("Validation name: " +:+ validation_name) ;;
  logger DEBUG ("Validation content: " +:+ validation) ;;
  client <- _get_hostinger_client self ;;
  del_txt_record client domain validation_name validation ;;
  logger INFO "DNS challenge cleaned up successfully" ;;
  logger DEBUG ("DNS cleanup completed for domain: " +:+ domain).

End Client.

(** ** An in-memory provider

    The provider's state is the collection of records it holds, each tagged
    with the zone it belongs to.  Listing returns the records of the zone;
    deleting removes the records of the zone that match one of the filters
    on name and type; an update without [overwrite] appends the submitted
    records, and with [overwrite] first drops the records of the same name
    and type.  No call fails. *)

Module Stub.

Definition state : Type := list (string * DnsRecord).

Definition records_of (zone : string) (s : state) : list DnsRecord :=
  map snd (List.filter (fun zr => String.eqb zr.1 zone) s).

Definition filter_matches (f : DNSV1ZoneDestroyRequestFiltersInner)
    (r : DnsRecord) : bool :=
  String.eqb (rr_name r) (flt_name f) && String.eqb (rr_type r) (flt_type f).

Definition same_rrset (zi : DNSV1ZoneUpdateRequestZoneInner) (r : DnsRecord) : bool :=
  String.eqb (rr_name r) (zi_name zi) && String.eqb (rr_type r) (zi_type zi).

Definition records_of_update (zi : DNSV1ZoneUpdateRequestZoneInner) : list DnsRecord :=
  map (fun c => mkDnsRecord (zi_name zi) (zi_type zi) (ri_content c) (zi_ttl zi))
      (zi_records zi).

Definition list_records (_token zone : string) (s : state)
    : outcome (list DnsRecord) * state :=
  (Return (records_of zone s), s).

Definition delete_records (_token zone : string) (rq : DNSV1ZoneDestroyRequest)
    (s : state) : outcome unit * state :=
  (Return tt,
   List.filter (fun zr => negb (String.eqb zr.1 zone &&
                                existsb (fun f => filter_matches f zr.2) (filters rq))) s).

Definition update_records (_token zone : string) (rq : DNSV1ZoneUpdateRequest)
    (s : state) : outcome unit * state :=
  let kept :=
    if overwrite rq then
      List.filter (fun zr => negb (String.eqb zr.1 zone &&
                                   existsb (fun zi => same_rrset zi zr.2) (upd_zone rq))) s
    else s in
  (Return tt,
   kept ++ map (fun r => (zone, r)) (flat_map records_of_update (upd_zone rq))).

Definition provider : Provider state :=
  mkProvider state list_records delete_records update_records.

(** The records of [zone] named [name] of type ["TXT"]. *)
Definition txt_at (zone name : string) (s : state) : list DnsRecord :=
  List.filter (fun r => String.eqb (rr_name r) name && String.eqb (rr_type r) "TXT")
              (records_of zone s).

(** Every record except the ["TXT"] records of [zone] named [name]. *)
Definition others (zone name : string) (s : state) : state :=
  List.filter (fun zr => negb (String.eqb zr.1 zone && String.eqb (rr_name zr.2) name &&
                               String.eqb (rr_type zr.2) "TXT")) s.

End Stub.

(** ** A provider with outages

    The in-memory provider, except that the calls named in a plan fail with
    [Exception("API Error")], as the mocks of the test suite do. *)

Module Faulty.

Record plan := mkPlan {
  list_fails : bool;
  delete_fails : bool;
  update_fails : bool;
}.

Definition state : Type := Stub.state * plan.

Definition guard {A} (fails : bool) (rpc : Stub.state -> outcome A * Stub.state)
    (s : state) : outcome A * state :=
  if fails then (Raise (Exception "API Error"), s)
  else let '(r, records) := rpc s.1 in (r, (records, s.2)).

Definition provider : Provider state :=
  mkProvider state
    (fun tok zone s => guard (list_fails s.2) (Stub.list_records tok zone) s)
    (fun tok zone rq s => guard (delete_fails s.2) (Stub.delete_records tok zone rq) s)
    (fun tok zone rq s => guard (update_fails s.2) (Stub.update_records tok zone rq) s).

End Faulty.

(** ** Notions used in the statements *)

(** One API client serves a run from [w0] to [w1] with events [t]: at most
    one [DNSZoneApi] was constructed on the way and every call went through
    the same object. *)
Definition single_api_client {P} (w0 w1 : World P) (t : list event) : Prop :=
  (api_built w1 <= S (api_built w0))%nat /\
  exists a, Forall (fun c => c.1 = a) (calls t).

(** The zone a domain is handled in, the conflict set among the listed
    records, and the two requests [add_txt_record] builds. *)
Definition zone_of (domain : string) : string := (_get_root_domain domain).1.

Definition existing_acme (subdomain : string) (zone_records : list DnsRecord)
    : list DnsRecord :=
  List.filter (fun z => String.eqb (rr_name z) subdomain &&
                        String.eqb (rr_type z) "TXT") zone_records.

Definition delete_by_filter (zone name : string) : request :=
  delete_dns_records_v1_call zone (mkDestroy [mkFilter name "TXT"]).

Definition create_txt (zone name content : string) (ttl : Z) : request :=
  update_dns_records_v1_call zone
    (mkUpdate [mkZoneInner name "TXT" ttl [mkContent content]] false).

(** What a successful [add_txt_record] makes of the in-memory provider's
    records: the conflicting records, if the listing showed any, are gone and
    the new record is appended. *)
Definition stub_after_add (zone name content : string) (ttl : Z)
    (s : Stub.state) : Stub.state :=
  (if Py.truthy (existing_acme name (Stub.records_of zone s))
   then (Stub.delete_records "" zone (mkDestroy [mkFilter name "TXT"]) s).2
   else s) ++ [(zone, mkDnsRecord name "TXT" content ttl)].

(** The exception [add_txt_record] raises for a failure [e]. *)
Definition add_error (e : exn) : exn :=
  errors_PluginError ("Encountered error adding TXT record: " +:+ str_of_exn e) e.

(** The operations a caller may run, one after the other, on one
    [_HostingerClient]; an exception raised by one does not keep the caller
    from running the next (certbot cleans up after a failed challenge too). *)
Inductive operation :=
| Create (domain record_name record_content : string) (ttl : Z)
| Destroy (domain record_name record_content : string).

Definition run_operation {P} (provider : Provider P) (self : nat) (op : operation)
    : M P unit :=
  match op with
  | Create domain record_name record_content ttl =>
      add_txt_record provider self domain record_name record_content ttl
  | Destroy domain record_name record_content =>
      del_txt_record provider self domain record_name record_content
  end.

Fixpoint run_operations {P} (provider : Provider P) (self : nat)
    (ops : list operation) (w : World P) : World P * list event :=
  match ops with
  | [] => (w, [])
  | op :: ops' =>
      let '(_, w1, t1) := run_operation provider self op w in
      let '(w2, t2) := run_operations provider self ops' w1 in
      (w2, t1 ++ t2)
  end.

(** An authenticator whose credentials are loaded, as after
    [_setup_credentials], and a world in which nothing has happened yet. *)
Definition prepared (token : string) : Authenticator :=
  mkAuthenticator (Some (mkCredentials (fun _ => token))) 60.

Definition fresh_world {P} (p : P) : World P := mkWorld p true [] 0.

(** The zone of the test suite: an A record, a CNAME record and a stale
    challenge record. *)
Definition example_zone : Stub.state :=
  [("bbdevs.com", mkDnsRecord "@" "A" "192.0.2.1" 3600);
   ("bbdevs.com", mkDnsRecord "www" "CNAME" "bbdevs.com" 3600);
   ("bbdevs.com", mkDnsRecord "_acme-challenge" "TXT" "old-challenge-content" 300)].

(** A world with one [_HostingerClient], at address [0], that has not yet
    built its API client. *)
Definition client_world {P} (p : P) : World P :=
  mkWorld p true [mkClient "test_token_123456789" None] 0.

(** ** Facts about the built-ins *)

Section PyFacts.
Import Py.

(** stdpp keeps [+:+] from unfolding under [simpl]; these two equations
    are its definition. *)
Lemma string_app_nil_l (t : string) : "" +:+ t = t.
Proof. reflexivity. Qed.

Lemma string_app_cons c (s t : string) : String c s +:+ t = String c (s +:+ t).
Proof. reflexivity. Qed.

Lemma string_app_nil_r (s : string) : s +:+ "" = s.
Proof.
  induction s as [|c s IH]; [done |].
  by rewrite string_app_cons, IH.
Qed.

Lemma string_app_assoc (a b c : string) : (a +:+ b) +:+ c = a +:+ (b +:+ c).
Proof.
  induction a as [|x a IH]; [done |].
  by rewrite !string_app_cons, IH.
Qed.

Lemma string_length_app (a b : string) :
  String.length (a +:+ b) = (String.length a + String.length b)%nat.
Proof.
  induction a as [|x a IH]; [done |].
  rewrite string_app_cons. simpl. by rewrite IH.
Qed.

Lemma substring_0_app (x y : string) :
  String.substring 0 (String.length x) (x +:+ y) = x.
Proof.
  induction x as [|c x IH].
  - rewrite string_app_nil_l. by destruct y.
  - rewrite string_app_cons. simpl. by rewrite IH.
Qed.

Lemma str_endswith_nil (suffix : string) :
  str_endswith "" suffix = String.eqb "" suffix || false.
Proof. reflexivity. Qed.

Lemma str_endswith_cons c (s suffix : string) :
  str_endswith (String c s) suffix =
  String.eqb (String c s) suffix || str_endswith s suffix.
Proof. reflexivity. Qed.

Lemma str_endswith_refl (s : string) : str_endswith s s = true.
Proof.
  destruct s as [|c s]; [done |].
  by rewrite str_endswith_cons, String.eqb_refl.
Qed.

Lemma str_endswith_app (x suffix : string) :
  str_endswith (x +:+ suffix) suffix = true.
Proof.
  induction x as [|c x IH].
  - apply str_endswith_refl.
  - rewrite string_app_cons, str_endswith_cons, IH. apply orb_true_r.
Qed.

Lemma str_endswith_inv (s suffix : string) :
  str_endswith s suffix = true -> exists x, s = x +:+ suffix.
Proof.
  induction s as [|c s IH]; intros H.
  - rewrite str_endswith_nil, orb_false_r in H.
    apply String.eqb_eq in H. by exists "".
  - rewrite str_endswith_cons in H. apply orb_true_iff in H as [H|H].
    + apply String.eqb_eq in H. exists "". by rewrite <- H.
    + destruct (IH H) as [x ->]. by exists (String c x).
Qed.

(** A suffix is never longer than the string it ends. *)
Lemma str_endswith_longer (s t : string) :
  (String.length s < String.length t)%nat -> str_endswith s t = false.
Proof.
  intros Hlt. destruct (str_endswith s t) eqn:E; [|done].
  apply str_endswith_inv in E as [x ->].
  rewrite string_length_app in Hlt. lia.
Qed.

Lemma str_slice_to_strip (x suffix : string) :
  suffix <> "" ->
  str_slice_to (x +:+ suffix) (- len suffix) = x.
Proof.
  intros Hne. unfold str_slice_to, slice_bound, len.
  assert (0 < String.length suffix)%nat as Hpos
    by (destruct suffix; [done | simpl; lia]).
  rewrite string_length_app.
  destruct (Z.ltb_spec (- Z.of_nat (String.length suffix)) 0); [|lia].
  replace (Z.to_nat _) with (String.length x) by lia.
  apply substring_0_app.
Qed.

Lemma str_split_nonempty sep s : str_split sep s <> [].
Proof.
  destruct s as [|c s]; simpl; [done |].
  destruct (Ascii.eqb c sep); [done |].
  by destruct (str_split sep s).
Qed.

Lemma str_split_no_sep sep s :
  has_char sep s = false -> str_split sep s = [s].
Proof.
  induction s as [|c s IH]; simpl; [done |].
  intros H. apply orb_false_iff in H as [Hc Hs].
  rewrite Hc, (IH Hs). done.
Qed.

Lemma str_split_app sep x r :
  has_char sep x = false ->
  str_split sep (x +:+ String sep r) = x :: str_split sep r.
Proof.
  induction x as [|c x IH].
  - intros _. rewrite string_app_nil_l. simpl. by rewrite Ascii.eqb_refl.
  - intros H. simpl in H. apply orb_false_iff in H as [Hc Hx].
    rewrite string_app_cons. simpl. rewrite Hc, (IH Hx). done.
Qed.

(** Splitting undoes joining, for labels that do not contain the
    separator. *)
Lemma str_split_join sep (labels : list string) :
  labels <> [] ->
  Forall (fun l => has_char sep l = false) labels ->
  str_split sep (str_join (String sep "") labels) = labels.
Proof.
  intros Hne Hall. induction Hall as [|l ls Hl Hls IH]; [done |].
  destruct ls as [|l' ls'].
  - simpl. by apply str_split_no_sep.
  - change (str_join (String sep "") (l :: l' :: ls'))
      with (l +:+ String sep (str_join (String sep "") (l' :: ls'))).
    rewrite str_split_app by done. f_equal. by apply IH.
Qed.

Lemma list_slice_from_last_two {A} (pre : list A) (a b : A) :
  list_slice_from (pre ++ [a; b]) (-2) = [a; b].
Proof.
  unfold list_slice_from, slice_bound. rewrite length_app. simpl.
  replace (Z.to_nat _) with (length pre) by lia.
  by rewrite drop_app_length.
Qed.

End PyFacts.


(** ** Zone resolution and relative names *)

Section Naming.
Import Py.

Lemma get_root_domain_joined (pre : list string) (a b : string) :
  Forall (fun l => has_char "." l = false) (pre ++ [a; b]) ->
  (_get_root_domain (str_join "." (pre ++ [a; b]))).1 = a +:+ "." +:+ b.
Proof.
  intros Hall. unfold _get_root_domain.
  rewrite (str_split_join "." (pre ++ [a; b])) by (done || by destruct pre).
  rewrite list_slice_from_last_two, length_app. simpl length.
  destruct (Z.leb_spec 2 (Z.of_nat (length pre + 2))); [done | lia].
Qed.

Lemma get_root_domain_single (domain : string) :
  has_char "." domain = false -> (_get_root_domain domain).1 = domain.
Proof.
  intros H. unfold _get_root_domain. by rewrite str_split_no_sep.
Qed.

Lemma subdomain_of_strip (x zone : string) :
  subdomain_of (x +:+ "." +:+ zone) zone = x.
Proof.
  unfold subdomain_of. rewrite str_endswith_app.
  by apply str_slice_to_strip.
Qed.

Lemma subdomain_of_apex (zone : string) : subdomain_of zone zone = "@".
Proof.
  unfold subdomain_of. rewrite str_endswith_longer, String.eqb_refl; [done |].
  rewrite string_length_app. simpl. lia.
Qed.

Lemma subdomain_of_outside (record_name zone : string) :
  (forall x, record_name <> x +:+ "." +:+ zone) ->
  record_name <> zone ->
  subdomain_of record_name zone = record_name.
Proof.
  intros Hsuffix Hne. unfold subdomain_of.
  destruct (str_endswith record_name ("." +:+ zone)) eqn:E.
  - apply str_endswith_inv in E as [x ->]. by destruct (Hsuffix x).
  - by apply String.eqb_neq in Hne as ->.
Qed.

End Naming.

(** C2.  For a name made of two or more dot-free labels joined by ["."],
    [_get_root_domain] returns the last two labels joined by ["."]; for a
    name that is a single dot-free label it returns the name itself. *)
Theorem get_root_domain_last_two_labels (labels : list string) :
  Forall (fun l => Py.has_char "." l = false) labels ->
  (forall pre a b, labels = pre ++ [a; b] ->
     (_get_root_domain (Py.str_join "." labels)).1 = a +:+ "." +:+ b) /\
  (forall a, labels = [a] ->
     (_get_root_domain (Py.str_join "." labels)).1 = Py.str_join "." labels).
Proof.
  intros Hall. split.
  - intros pre a b ->. by apply get_root_domain_joined.
  - intros a ->. apply get_root_domain_single. by inversion Hall.
Qed.

Lemma get_root_domain_last_two_labels_witness :
  (_get_root_domain "auth.sso.bbdevs.com").1 = "bbdevs.com" /\
  (_get_root_domain "localhost").1 = "localhost".
Proof.
  split.
  - apply (proj1 (get_root_domain_last_two_labels
                    ["auth"; "sso"; "bbdevs"; "com"] ltac:(repeat constructor))
             ["auth"; "sso"] "bbdevs" "com" eq_refl).
  - apply (proj2 (get_root_domain_last_two_labels
                    ["localhost"] ltac:(repeat constructor))
             "localhost" eq_refl).
Defined.

(** C3.  The relative name of [record_name] in [zone] is [x] when
    [record_name] is [x], a dot and [zone]; it is ["@"] when [record_name] is
    [zone]; otherwise it is [record_name] itself.  The computation is a total
    function: no case raises. *)
Theorem subdomain_of_cases (record_name zone : string) :
  (forall x, record_name = x +:+ "." +:+ zone -> subdomain_of record_name zone = x) /\
  (record_name = zone -> subdomain_of record_name zone = "@") /\
  ((forall x, record_name <> x +:+ "." +:+ zone) -> record_name <> zone ->
     subdomain_of record_name zone = record_name).
Proof.
  split; [|split].
  - intros x ->. apply subdomain_of_strip.
  - intros ->. apply subdomain_of_apex.
  - apply subdomain_of_outside.
Qed.

Lemma subdomain_of_cases_witness :
  subdomain_of "_acme-challenge.sso.bbdevs.com" "bbdevs.com" = "_acme-challenge.sso" /\
  subdomain_of "bbdevs.com" "bbdevs.com" = "@" /\
  subdomain_of "_acme-challenge.example.org" "bbdevs.com" = "_acme-challenge.example.org".
Proof.
  split; [|split].
  - apply (proj1 (subdomain_of_cases "_acme-challenge.sso.bbdevs.com" "bbdevs.com")
             "_acme-challenge.sso" eq_refl).
  - apply (proj1 (proj2 (subdomain_of_cases "bbdevs.com" "bbdevs.com")) eq_refl).
  - apply (proj2 (proj2 (subdomain_of_cases "_acme-challenge.example.org" "bbdevs.com"))).
    + intros x Hx.
      apply (f_equal (fun s => Py.str_endswith s ("." +:+ "bbdevs.com"))) in Hx.
      rewrite str_endswith_app in Hx. vm_compute in Hx. discriminate.
    + discriminate.
Defined.

(** ** Running the client methods *)

Arguments _get_root_domain : simpl never.
Arguments subdomain_of : simpl never.
Arguments Py.str_of_int : simpl never.

Lemma calls_app (t1 t2 : list event) : calls (t1 ++ t2) = calls t1 ++ calls t2.
Proof. apply omap_app. Qed.

Lemma logged_app (t1 t2 : list event) : logged (t1 ++ t2) = logged t1 ++ logged t2.
Proof. apply omap_app. Qed.

Section ClientFacts.
Context {P : Type} (provider : Provider P).
Implicit Types (w : World P) (self : nat).

(** *** Obtaining the API client *)

Lemma get_api_client_dangling w self :
  heap w !! self = None ->
  _get_api_client self w = (Raise (ReferenceError "no such object"), w, []).
Proof.
  intros H. unfold _get_api_client, bind, load. by rewrite H.
Qed.

Lemma get_api_client_cached w self tok a :
  heap w !! self = Some (mkClient tok (Some a)) ->
  _get_api_client self w = (Return a, w, [Log INFO "Hostinger API client obtained"]).
Proof.
  intros H. unfold _get_api_client, bind, load. by rewrite H.
Qed.

Lemma get_api_client_first_use w self tok :
  heap w !! self = Some (mkClient tok None) ->
  hostinger_api_installed w = true ->
  _get_api_client self w =
    (Return (mkApi (api_built w) tok),
     set_heap (<[self := mkClient tok (Some (mkApi (api_built w) tok))]> (heap w))
              (set_api_built (S (api_built w)) w),
     [Log INFO "Initializing Hostinger API client";
      Log INFO "Hostinger API client initialized";
      Log INFO "Hostinger API client obtained"]).
Proof.
  intros H Hinst.
  unfold _get_api_client, bind, load, try_except, import_hostinger_api.
  rewrite H. simpl. by rewrite Hinst.
Qed.

Lemma get_api_client_not_installed w self tok :
  heap w !! self = Some (mkClient tok None) ->
  hostinger_api_installed w = false ->
  _get_api_client self w =
    (Raise (errors_PluginError
       "Could not import hostinger-api. Please install it with: pip install hostinger-api"
       (ImportError "No module named 'hostinger_api'")),
     w,
     [Log INFO "Initializing Hostinger API client";
      Log ERROR "Encountered error initializing Hostinger API client"]).
Proof.
  intros H Hinst.
  unfold _get_api_client, bind, load, try_except, import_hostinger_api.
  rewrite H. simpl. by rewrite Hinst.
Qed.

(** What a successful [_get_api_client] leaves behind: the provider and the
    installation are untouched, no request was issued, [self] now holds the
    client that was returned, and at most one client was constructed. *)
Lemma get_api_client_Return w self api w1 t1 :
  _get_api_client self w = (Return api, w1, t1) ->
  remote w1 = remote w /\
  hostinger_api_installed w1 = hostinger_api_installed w /\
  calls t1 = [] /\
  (exists tok, heap w1 !! self = Some (mkClient tok (Some api))) /\
  (api_built w <= api_built w1 <= S (api_built w))%nat.
Proof.
  intros Hrun.
  destruct (heap w !! self) as [[tok [a|]]|] eqn:Hself.
  - rewrite (get_api_client_cached w self tok a Hself) in Hrun.
    inversion Hrun; subst. repeat split; eauto with lia.
  - destruct (hostinger_api_installed w) eqn:Hinst.
    + rewrite (get_api_client_first_use w self tok Hself Hinst) in Hrun.
      inversion Hrun; subst. simpl. repeat split; eauto with lia.
      exists tok. apply list_lookup_insert_eq. by eapply lookup_lt_Some.
    + by rewrite (get_api_client_not_installed w self tok Hself Hinst) in Hrun.
  - by rewrite (get_api_client_dangling w self Hself) in Hrun.
Qed.

(** A failed [_get_api_client] changes nothing and issues no request. *)
Lemma get_api_client_Raise w self e w1 t1 :
  _get_api_client self w = (Raise e, w1, t1) ->
  w1 = w /\ calls t1 = [].
Proof.
  intros Hrun.
  destruct (heap w !! self) as [[tok [a|]]|] eqn:Hself.
  - by rewrite (get_api_client_cached w self tok a Hself) in Hrun.
  - destruct (hostinger_api_installed w) eqn:Hinst.
    + by rewrite (get_api_client_first_use w self tok Hself Hinst) in Hrun.
    + rewrite (get_api_client_not_installed w self tok Hself Hinst) in Hrun.
      by inversion Hrun.
  - rewrite (get_api_client_dangling w self Hself) in Hrun. by inversion Hrun.
Qed.

(** With the package installed, a client that exists always obtains its
    API client. *)
Lemma get_api_client_total w self c :
  heap w !! self = Some c ->
  hostinger_api_installed w = true ->
  exists api w1 t1, _get_api_client self w = (Return api, w1, t1).
Proof.
  intros Hself Hinst. destruct c as [tok [a|]].
  - eexists _, _, _. by apply (get_api_client_cached w self tok a).
  - eexists _, _, _. by apply (get_api_client_first_use w self tok).
Qed.

End ClientFacts.

(** *** Reading a trace *)

Lemma calls_nil : calls [] = [].
Proof. reflexivity. Qed.

Lemma calls_cons_Log lvl msg t : calls (Log lvl msg :: t) = calls t.
Proof. reflexivity. Qed.

Lemma calls_cons_Call a rq t : calls (Call a rq :: t) = (a, rq) :: calls t.
Proof. reflexivity. Qed.

Lemma logged_nil : logged [] = [].
Proof. reflexivity. Qed.

Lemma logged_cons_Log lvl msg t : logged (Log lvl msg :: t) = (lvl, msg) :: logged t.
Proof. reflexivity. Qed.

Lemma logged_cons_Call a rq t : logged (Call a rq :: t) = logged t.
Proof. reflexivity. Qed.

Lemma get_root_domain_calls (domain : string) : calls (_get_root_domain domain).2 = [].
Proof.
  unfold _get_root_domain.
  by destruct (2 <=? Z.of_nat (length (Py.str_split "." domain))).
Qed.

(** Computes the calls of a trace given cell by cell. *)
Ltac trace_calls :=
  repeat first
    [ rewrite calls_app | rewrite calls_cons_Log | rewrite calls_cons_Call
    | rewrite calls_nil | rewrite get_root_domain_calls
    | rewrite app_nil_l | rewrite app_nil_r ].

Lemma truthy_false {A} (l : list A) : Py.truthy l = false <-> l = [].
Proof. by destruct l. Qed.

Lemma truthy_true {A} (l : list A) : Py.truthy l = true <-> l <> [].
Proof. by destruct l. Qed.

(** *** [add_txt_record] step by step *)

Section AddFacts.
Context {P : Type} (provider : Provider P).
Implicit Types (w : World P) (self : nat).

(** Unfolds the statement monad in the goal. *)
Ltac unfold_run :=
  unfold bind, try_except, logger, raise, traced, call, import_hostinger_api, ret.

Lemma add_txt_record_no_client w self domain record_name record_content ttl e w1 t1 :
  _get_api_client self w = (Raise e, w1, t1) ->
  add_txt_record provider self domain record_name record_content ttl w =
    (Raise (add_error e), w1,
     Log INFO "Adding TXT record" :: t1 ++
     [Log ERROR "Encountered error adding TXT record"]).
Proof.
  intros H1. unfold add_txt_record. unfold_run.
  rewrite H1. reflexivity.
Qed.

Lemma add_txt_record_no_models w self domain record_name record_content ttl
    api w1 t1 :
  _get_api_client self w = (Return api, w1, t1) ->
  hostinger_api_installed w = false ->
  exists t,
    add_txt_record provider self domain record_name record_content ttl w =
      (Raise (add_error (ImportError "No module named 'hostinger_api'")), w1, t) /\
    calls t = [].
Proof.
  intros H1 Hinst.
  destruct (get_api_client_Return w self api w1 t1 H1) as (Hrem & Hinst1 & Hc1 & _).
  rewrite <- Hinst1 in Hinst.
  unfold add_txt_record. unfold_run.
  rewrite H1. simpl. rewrite Hinst.
  eexists. split; [reflexivity |].
  trace_calls. by rewrite Hc1.
Qed.

Lemma add_txt_record_list_fails w self domain record_name record_content ttl
    api w1 t1 e p1 :
  _get_api_client self w = (Return api, w1, t1) ->
  hostinger_api_installed w = true ->
  get_dns_records_v1 provider (access_token api) (zone_of domain) (remote w) =
    (Raise e, p1) ->
  exists t,
    add_txt_record provider self domain record_name record_content ttl w =
      (Raise (add_error e), set_remote p1 w1, t) /\
    calls t = [(api, get_dns_records_v1_call (zone_of domain))].
Proof.
  intros H1 Hinst Hget.
  destruct (get_api_client_Return w self api w1 t1 H1) as (Hrem & Hinst1 & Hc1 & _).
  rewrite <- Hrem in Hget. rewrite <- Hinst1 in Hinst.
  unfold add_txt_record. unfold_run.
  rewrite H1. simpl. rewrite Hinst. fold (zone_of domain). rewrite Hget.
  eexists. split; [reflexivity |].
  trace_calls. by rewrite Hc1.
Qed.

Lemma add_txt_record_no_conflict w self domain record_name record_content ttl
    api w1 t1 zone_records p1 ru p3 :
  let zone := zone_of domain in
  let name := subdomain_of record_name zone in
  _get_api_client self w = (Return api, w1, t1) ->
  hostinger_api_installed w = true ->
  get_dns_records_v1 provider (access_token api) zone (remote w) =
    (Return zone_records, p1) ->
  existing_acme name zone_records = [] ->
  update_dns_records_v1 provider (access_token api) zone
    (mkUpdate [mkZoneInner name "TXT" ttl [mkContent record_content]] false) p1 =
    (ru, p3) ->
  exists t,
    add_txt_record provider self domain record_name record_content ttl w =
      (match ru with Return _ => Return tt | Raise e => Raise (add_error e) end,
       set_remote p3 w1, t) /\
    calls t = [(api, get_dns_records_v1_call zone);
               (api, create_txt zone name record_content ttl)].
Proof.
  intros zone name H1 Hinst Hget Hnone Hupd.
  destruct (get_api_client_Return w self api w1 t1 H1) as (Hrem & Hinst1 & Hc1 & _).
  rewrite <- Hrem in Hget. rewrite <- Hinst1 in Hinst.
  unfold add_txt_record. unfold_run.
  rewrite H1. simpl. rewrite Hinst.
  fold (zone_of domain). fold zone. fold name. rewrite Hget.
  fold (existing_acme name zone_records). rewrite Hnone. simpl.
  rewrite Hupd.
  destruct ru as [[]|e]; (eexists; split; [reflexivity |]);
    trace_calls; by rewrite Hc1.
Qed.

Lemma add_txt_record_conflict w self domain record_name record_content ttl
    api w1 t1 zone_records p1 rd p2 ru p3 :
  let zone := zone_of domain in
  let name := subdomain_of record_name zone in
  _get_api_client self w = (Return api, w1, t1) ->
  hostinger_api_installed w = true ->
  get_dns_records_v1 provider (access_token api) zone (remote w) =
    (Return zone_records, p1) ->
  existing_acme name zone_records <> [] ->
  delete_dns_records_v1 provider (access_token api) zone
    (mkDestroy [mkFilter name "TXT"]) p1 = (rd, p2) ->
  update_dns_records_v1 provider (access_token api) zone
    (mkUpdate [mkZoneInner name "TXT" ttl [mkContent record_content]] false) p2 =
    (ru, p3) ->
  exists t,
    add_txt_record provider self domain record_name record_content ttl w =
      (match ru with Return _ => Return tt | Raise e => Raise (add_error e) end,
       set_remote p3 w1, t) /\
    calls t = [(api, get_dns_records_v1_call zone);
               (api, delete_by_filter zone name);
               (api, create_txt zone name record_content ttl)] /\
    (forall e, rd = Raise e ->
       (WARNING, "Error deleting existing records: " +:+ str_of_exn e) ∈ logged t).
Proof.
  intros zone name H1 Hinst Hget Hsome Hdel Hupd.
  destruct (get_api_client_Return w self api w1 t1 H1) as (Hrem & Hinst1 & Hc1 & _).
  rewrite <- Hrem in Hget. rewrite <- Hinst1 in Hinst.
  apply truthy_true in Hsome.
  unfold add_txt_record. unfold_run.
  rewrite H1. simpl. rewrite Hinst.
  fold (zone_of domain). fold zone. fold name. rewrite Hget.
  fold (existing_acme name zone_records). rewrite Hsome. simpl.
  rewrite Hdel.
  destruct rd as [[]|ed]; simpl; rewrite Hupd;
    destruct ru as [[]|e];
    (eexists; split; [reflexivity | split;
     [ trace_calls; by rewrite Hc1
     | intros e' He'; inversion He'; subst;
       repeat first [ rewrite logged_app | rewrite logged_cons_Log
                    | rewrite logged_cons_Call ];
       set_solver ]]).
Qed.


(** *** [del_txt_record] step by step *)

Lemma del_txt_record_no_client w self domain record_name record_content e w1 t1 :
  _get_api_client self w = (Raise e, w1, t1) ->
  del_txt_record provider self domain record_name record_content w =
    (Return tt, w1,
     Log INFO "Deleting TXT record" :: t1 ++
     [Log WARNING ("Encountered error deleting TXT record: " +:+ str_of_exn e)]).
Proof.
  intros H1. unfold del_txt_record. unfold_run.
  rewrite H1. reflexivity.
Qed.

Lemma del_txt_record_no_models w self domain record_name record_content api w1 t1 :
  _get_api_client self w = (Return api, w1, t1) ->
  hostinger_api_installed w = false ->
  exists t,
    del_txt_record provider self domain record_name record_content w =
      (Return tt, w1, t) /\
    calls t = [].
Proof.
  intros H1 Hinst.
  destruct (get_api_client_Return w self api w1 t1 H1) as (Hrem & Hinst1 & Hc1 & _).
  rewrite <- Hinst1 in Hinst.
  unfold del_txt_record. unfold_run.
  rewrite H1. simpl. rewrite Hinst.
  eexists. split; [reflexivity |].
  trace_calls. by rewrite Hc1.
Qed.

Lemma del_txt_record_called w self domain record_name record_content
    api w1 t1 rd p2 :
  let zone := zone_of domain in
  let name := subdomain_of record_name zone in
  _get_api_client self w = (Return api, w1, t1) ->
  hostinger_api_installed w = true ->
  delete_dns_records_v1 provider (access_token api) zone
    (mkDestroy [mkFilter name "TXT"]) (remote w) = (rd, p2) ->
  exists t,
    del_txt_record provider self domain record_name record_content w =
      (Return tt, set_remote p2 w1, t) /\
    calls t = [(api, delete_by_filter zone name)] /\
    (forall e, rd = Raise e ->
       last (logged t) =
         Some (WARNING, "Encountered error deleting TXT record: " +:+ str_of_exn e)).
Proof.
  intros zone name H1 Hinst Hdel.
  destruct (get_api_client_Return w self api w1 t1 H1) as (Hrem & Hinst1 & Hc1 & _).
  rewrite <- Hrem in Hdel. rewrite <- Hinst1 in Hinst.
  unfold del_txt_record. unfold_run.
  rewrite H1. simpl. rewrite Hinst.
  fold (zone_of domain). fold zone. fold name. rewrite Hdel.
  destruct rd as [[]|ed];
    (eexists; split; [reflexivity | split;
     [ trace_calls; by rewrite Hc1
     | intros e' He'; inversion He'; subst;
       repeat first [ rewrite logged_app | rewrite logged_cons_Log
                    | rewrite logged_cons_Call | rewrite logged_nil ];
       rewrite app_comm_cons; apply last_snoc ]]).
Qed.

(** Whatever happens, [del_txt_record] returns. *)
Lemma del_txt_record_returns w self domain record_name record_content :
  result (del_txt_record provider self domain record_name record_content w) = Return tt.
Proof.
  destruct (_get_api_client self w) as [[[api|e] w1] t1] eqn:H1.
  - destruct (hostinger_api_installed w) eqn:Hinst.
    + destruct (delete_dns_records_v1 provider (access_token api) (zone_of domain)
        (mkDestroy [mkFilter (subdomain_of record_name (zone_of domain)) "TXT"])
        (remote w)) as [rd p2] eqn:Hdel.
      destruct (del_txt_record_called w self domain record_name record_content
                  api w1 t1 rd p2 H1 Hinst Hdel) as (t & -> & _). done.
    + destruct (del_txt_record_no_models w self domain record_name record_content
                  api w1 t1 H1 Hinst) as (t & -> & _). done.
  - by rewrite (del_txt_record_no_client w self domain record_name record_content
                  e w1 t1 H1).
Qed.

End AddFacts.

(** ** Conflict removal and error propagation *)

Lemma existing_acme_nonempty (name : string) (zone_records : list DnsRecord) :
  existing_acme name zone_records <> [] <->
  exists z, z ∈ zone_records /\ rr_name z = name /\ rr_type z = "TXT".
Proof.
  unfold existing_acme. split.
  - intros Hne.
    destruct (List.filter _ zone_records) as [|z l] eqn:E; [done |].
    assert (In z (z :: l)) as Hin by (by left).
    rewrite <- E in Hin. apply filter_In in Hin as [Hin Hz].
    apply andb_true_iff in Hz as [Hn Ht].
    apply String.eqb_eq in Hn, Ht. exists z. by rewrite list_elem_of_In.
  - intros (z & Hin & Hn & Ht) Hnil.
    assert (In z (List.filter (fun z => String.eqb (rr_name z) name &&
                                        String.eqb (rr_type z) "TXT") zone_records)) as H.
    { apply filter_In. split; [by apply list_elem_of_In |].
      rewrite Hn, Ht. by rewrite !String.eqb_refl. }
    by rewrite Hnil in H.
Qed.

(** C1.  When the client is obtained and the listing answers: if a listed
    record has the relative name and type TXT, the requests issued are the
    listing, one delete-by-filter on that name and type, then the create; if
    none has, they are the listing and the create. *)
Theorem add_txt_record_conflict_removal {P} (provider : Provider P) (w : World P)
    (self : nat) (domain record_name record_content : string) (ttl : Z)
    (api : DNSZoneApi) (w1 : World P) (t1 : list event)
    (zone_records : list DnsRecord) (p1 : P) :
  let zone := zone_of domain in
  let name := subdomain_of record_name zone in
  let issued :=
    calls (events (add_txt_record provider self domain record_name record_content ttl w)) in
  _get_api_client self w = (Return api, w1, t1) ->
  hostinger_api_installed w = true ->
  get_dns_records_v1 provider (access_token api) zone (remote w) =
    (Return zone_records, p1) ->
  ((exists z, z ∈ zone_records /\ rr_name z = name /\ rr_type z = "TXT") ->
     issued = [(api, get_dns_records_v1_call zone);
               (api, delete_by_filter zone name);
               (api, create_txt zone name record_content ttl)]) /\
  ((~ exists z, z ∈ zone_records /\ rr_name z = name /\ rr_type z = "TXT") ->
     issued = [(api, get_dns_records_v1_call zone);
               (api, create_txt zone name record_content ttl)]).
Proof.
  intros zone name issued H1 Hinst Hget. subst issued. split.
  - intros Hsome. apply existing_acme_nonempty in Hsome.
    destruct (delete_dns_records_v1 provider (access_token api) zone
                (mkDestroy [mkFilter name "TXT"]) p1) as [rd p2] eqn:Hdel.
    destruct (update_dns_records_v1 provider (access_token api) zone
                (mkUpdate [mkZoneInner name "TXT" ttl [mkContent record_content]] false)
                p2) as [ru p3] eqn:Hupd.
    destruct (add_txt_record_conflict provider w self domain record_name
                record_content ttl api w1 t1 zone_records p1 rd p2 ru p3
                H1 Hinst Hget Hsome Hdel Hupd) as (t & -> & Hcalls & _).
    exact Hcalls.
  - intros Hnone.
    assert (existing_acme name zone_records = []) as Hnil.
    { destruct (existing_acme name zone_records) eqn:E; [done |].
      destruct Hnone. apply existing_acme_nonempty. by rewrite E. }
    destruct (update_dns_records_v1 provider (access_token api) zone
                (mkUpdate [mkZoneInner name "TXT" ttl [mkContent record_content]] false)
                p1) as [ru p3] eqn:Hupd.
    destruct (add_txt_record_no_conflict provider w self domain record_name
                record_content ttl api w1 t1 zone_records p1 ru p3
                H1 Hinst Hget Hnil Hupd) as (t & -> & Hcalls).
    exact Hcalls.
Qed.

Lemma add_txt_record_conflict_removal_witness :
  let api := mkApi 0 "test_token_123456789" in
  calls (events (add_txt_record Stub.provider 0 "bbdevs.com"
                   "_acme-challenge.bbdevs.com" "new-content" 300
                   (client_world example_zone))) =
    [(api, get_dns_records_v1_call "bbdevs.com");
     (api, delete_by_filter "bbdevs.com" "_acme-challenge");
     (api, create_txt "bbdevs.com" "_acme-challenge" "new-content" 300)] /\
  calls (events (add_txt_record Stub.provider 0 "bbdevs.com"
                   "_acme-challenge.bbdevs.com" "new-content" 300
                   (client_world []))) =
    [(api, get_dns_records_v1_call "bbdevs.com");
     (api, create_txt "bbdevs.com" "_acme-challenge" "new-content" 300)].
Proof.
  split.
  - refine (proj1 (add_txt_record_conflict_removal Stub.provider
             (client_world example_zone) 0 "bbdevs.com" "_acme-challenge.bbdevs.com"
             "new-content" 300 _ _ _ _ _ eq_refl eq_refl eq_refl) _).
    exists (mkDnsRecord "_acme-challenge" "TXT" "old-challenge-content" 300).
    split; [| by split]. apply list_elem_of_In. simpl. tauto.
  - refine (proj2 (add_txt_record_conflict_removal Stub.provider
             (client_world []) 0 "bbdevs.com" "_acme-challenge.bbdevs.com"
             "new-content" 300 _ _ _ _ _ eq_refl eq_refl eq_refl) _).
    intros (z & Hin & _). simpl in Hin. by apply elem_of_nil in Hin.
Defined.

(** C4.  In [add_txt_record], once the client is obtained: a failure [e] of
    the listing, or of the create, makes the method raise
    [errors.PluginError] with cause [e]; a failure of the delete that removes
    the conflicting records is logged as a warning, the create is still the
    next request, and the outcome is that of the create alone. *)
Theorem add_txt_record_failures {P} (provider : Provider P) (w : World P)
    (self : nat) (domain record_name record_content : string) (ttl : Z)
    (api : DNSZoneApi) (w1 : World P) (t1 : list event) :
  let zone := zone_of domain in
  let name := subdomain_of record_name zone in
  let delete_request := mkDestroy [mkFilter name "TXT"] in
  let update_request :=
    mkUpdate [mkZoneInner name "TXT" ttl [mkContent record_content]] false in
  let run := add_txt_record provider self domain record_name record_content ttl w in
  _get_api_client self w = (Return api, w1, t1) ->
  hostinger_api_installed w = true ->
  (forall e p1,
     get_dns_records_v1 provider (access_token api) zone (remote w) = (Raise e, p1) ->
     result run =
       Raise (errors_PluginError
                ("Encountered error adding TXT record: " +:+ str_of_exn e) e)) /\
  (forall zone_records p1,
     get_dns_records_v1 provider (access_token api) zone (remote w) =
       (Return zone_records, p1) ->
     (forall e p3,
        update_dns_records_v1 provider (access_token api) zone update_request
          (if Py.truthy (existing_acme name zone_records)
           then (delete_dns_records_v1 provider (access_token api) zone
                   delete_request p1).2
           else p1) = (Raise e, p3) ->
        result run =
          Raise (errors_PluginError
                   ("Encountered error adding TXT record: " +:+ str_of_exn e) e)) /\
     (forall e p2 ru p3,
        existing_acme name zone_records <> [] ->
        delete_dns_records_v1 provider (access_token api) zone delete_request p1 =
          (Raise e, p2) ->
        update_dns_records_v1 provider (access_token api) zone update_request p2 =
          (ru, p3) ->
        (WARNING, "Error deleting existing records: " +:+ str_of_exn e)
          ∈ logged (events run) /\
        calls (events run) = [(api, get_dns_records_v1_call zone);
                              (api, delete_by_filter zone name);
                              (api, create_txt zone name record_content ttl)] /\
        result run =
          match ru with
          | Return _ => Return tt
          | Raise e' =>
              Raise (errors_PluginError
                       ("Encountered error adding TXT record: " +:+ str_of_exn e') e')
          end)).
Proof.
  intros zone name delete_request update_request run H1 Hinst. subst run.
  split; [| intros zone_records p1 Hget; split].
  - intros e p1 Hget.
    destruct (add_txt_record_list_fails provider w self domain record_name
                record_content ttl api w1 t1 e p1 H1 Hinst Hget) as (t & -> & _).
    done.
  - intros e p3 Hupd.
    destruct (Py.truthy (existing_acme name zone_records)) eqn:Hex.
    + apply truthy_true in Hex.
      destruct (delete_dns_records_v1 provider (access_token api) zone
                  delete_request p1) as [rd p2] eqn:Hdel.
      destruct (add_txt_record_conflict provider w self domain record_name
                  record_content ttl api w1 t1 zone_records p1 rd p2 (Raise e) p3
                  H1 Hinst Hget Hex Hdel Hupd) as (t & -> & _).
      done.
    + apply truthy_false in Hex.
      destruct (add_txt_record_no_conflict provider w self domain record_name
                  record_content ttl api w1 t1 zone_records p1 (Raise e) p3
                  H1 Hinst Hget Hex Hupd) as (t & -> & _).
      done.
  - intros e p2 ru p3 Hex Hdel Hupd.
    destruct (add_txt_record_conflict provider w self domain record_name
                record_content ttl api w1 t1 zone_records p1 (Raise e) p2 ru p3
                H1 Hinst Hget Hex Hdel Hupd) as (t & -> & Hcalls & Hwarn).
    split; [by apply Hwarn | split; [exact Hcalls | done]].
Qed.

Lemma add_txt_record_failures_witness :
  let api := mkApi 0 "test_token_123456789" in
  let run plan :=
    add_txt_record Faulty.provider 0 "bbdevs.com" "_acme-challenge.bbdevs.com"
      "content" 300 (client_world (example_zone, plan)) in
  let wrapped :=
    Raise (errors_PluginError "Encountered error adding TXT record: API Error"
             (Exception "API Error")) in
  result (run (Faulty.mkPlan true false false)) = wrapped /\
  result (run (Faulty.mkPlan false false true)) = wrapped /\
  ((WARNING, "Error deleting existing records: API Error")
     ∈ logged (events (run (Faulty.mkPlan false true false))) /\
   calls (events (run (Faulty.mkPlan false true false))) =
     [(api, get_dns_records_v1_call "bbdevs.com");
      (api, delete_by_filter "bbdevs.com" "_acme-challenge");
      (api, create_txt "bbdevs.com" "_acme-challenge" "content" 300)] /\
   result (run (Faulty.mkPlan false true false)) = Return tt).
Proof.
  intros api run wrapped. split; [| split].
  - refine (proj1 (add_txt_record_failures Faulty.provider
             (client_world (example_zone, Faulty.mkPlan true false false)) 0
             "bbdevs.com" "_acme-challenge.bbdevs.com" "content" 300
             _ _ _ eq_refl eq_refl) (Exception "API Error") _ eq_refl).
  - refine (proj1 (proj2 (add_txt_record_failures Faulty.provider
             (client_world (example_zone, Faulty.mkPlan false false true)) 0
             "bbdevs.com" "_acme-challenge.bbdevs.com" "content" 300
             _ _ _ eq_refl eq_refl) _ _ eq_refl) (Exception "API Error") _ eq_refl).
  - refine (proj2 (proj2 (add_txt_record_failures Faulty.provider
             (client_world (example_zone, Faulty.mkPlan false true false)) 0
             "bbdevs.com" "_acme-challenge.bbdevs.com" "content" 300
             _ _ _ eq_refl eq_refl) _ _ eq_refl)
             (Exception "API Error") _ (Return tt) _ _ eq_refl eq_refl).
    discriminate.
Defined.

(** C5.  [del_txt_record] returns normally from every world and for every
    argument; when the delete call fails, or when the API client cannot be
    obtained, the last log record is the warning that carries the failure. *)
Theorem del_txt_record_never_raises {P} (provider : Provider P) (w : World P)
    (self : nat) (domain record_name record_content : string) :
  let zone := zone_of domain in
  let name := subdomain_of record_name zone in
  let run := del_txt_record provider self domain record_name record_content w in
  result run = Return tt /\
  (forall api w1 t1 e p2,
     _get_api_client self w = (Return api, w1, t1) ->
     hostinger_api_installed w = true ->
     delete_dns_records_v1 provider (access_token api) zone
       (mkDestroy [mkFilter name "TXT"]) (remote w) = (Raise e, p2) ->
     last (logged (events run)) =
       Some (WARNING, "Encountered error deleting TXT record: " +:+ str_of_exn e)) /\
  (forall e w1 t1,
     _get_api_client self w = (Raise e, w1, t1) ->
     last (logged (events run)) =
       Some (WARNING, "Encountered error deleting TXT record: " +:+ str_of_exn e)).
Proof.
  intros zone name run. subst run. split; [| split].
  - apply del_txt_record_returns.
  - intros api w1 t1 e p2 H1 Hinst Hdel.
    destruct (del_txt_record_called provider w self domain record_name
                record_content api w1 t1 (Raise e) p2 H1 Hinst Hdel)
      as (t & -> & _ & Hwarn).
    by apply Hwarn.
  - intros e w1 t1 H1.
    rewrite (del_txt_record_no_client provider w self domain record_name
               record_content e w1 t1 H1).
    unfold events. simpl. rewrite logged_app, app_comm_cons.
    apply last_snoc.
Qed.

Lemma del_txt_record_never_raises_witness :
  let failing :=
    del_txt_record Faulty.provider 0 "bbdevs.com" "_acme-challenge.bbdevs.com"
      "content" (client_world (example_zone, Faulty.mkPlan false true false)) in
  let unprepared :=
    del_txt_record Stub.provider 0 "bbdevs.com" "_acme-challenge.bbdevs.com"
      "content" (mkWorld example_zone false [mkClient "test_token_123456789" None] 0) in
  result failing = Return tt /\
  last (logged (events failing)) =
    Some (WARNING, "Encountered error deleting TXT record: API Error") /\
  last (logged (events unprepared)) =
    Some (WARNING,
          "Encountered error deleting TXT record: Could not import hostinger-api. Please install it with: pip install hostinger-api").
Proof.
  intros failing unprepared. split; [| split].
  - apply (proj1 (del_txt_record_never_raises Faulty.provider
             (client_world (example_zone, Faulty.mkPlan false true false)) 0
             "bbdevs.com" "_acme-challenge.bbdevs.com" "content")).
  - refine (proj1 (proj2 (del_txt_record_never_raises Faulty.provider
             (client_world (example_zone, Faulty.mkPlan false true false)) 0
             "bbdevs.com" "_acme-challenge.bbdevs.com" "content"))
             _ _ _ (Exception "API Error") _ eq_refl eq_refl eq_refl).
  - refine (proj2 (proj2 (del_txt_record_never_raises Stub.provider
             (mkWorld example_zone false [mkClient "test_token_123456789" None] 0) 0
             "bbdevs.com" "_acme-challenge.bbdevs.com" "content"))
             (errors_PluginError _ (ImportError _)) _ _ eq_refl).
Defined.

(** ** The shape of every run *)

Section Shapes.
Context {P : Type} (provider : Provider P).
Implicit Types (w : World P) (self : nat).

Lemma set_remote_same w : set_remote (remote w) w = w.
Proof. by destruct w. Qed.

(** The calls of [add_txt_record], when the client is obtained and the
    listing answers. *)
Lemma add_txt_record_calls w self domain record_name record_content ttl
    api w1 t1 zone_records p1 :
  let zone := zone_of domain in
  let name := subdomain_of record_name zone in
  _get_api_client self w = (Return api, w1, t1) ->
  hostinger_api_installed w = true ->
  get_dns_records_v1 provider (access_token api) zone (remote w) =
    (Return zone_records, p1) ->
  calls (events (add_txt_record provider self domain record_name record_content ttl w)) =
    (api, get_dns_records_v1_call zone) ::
    (if Py.truthy (existing_acme name zone_records)
     then [(api, delete_by_filter zone name)] else []) ++
    [(api, create_txt zone name record_content ttl)].
Proof.
  intros zone name H1 Hinst Hget.
  destruct (Py.truthy (existing_acme name zone_records)) eqn:Hex.
  - apply truthy_true in Hex.
    destruct (delete_dns_records_v1 provider (access_token api) zone
                (mkDestroy [mkFilter name "TXT"]) p1) as [rd p2] eqn:Hdel.
    destruct (update_dns_records_v1 provider (access_token api) zone
                (mkUpdate [mkZoneInner name "TXT" ttl [mkContent record_content]] false)
                p2) as [ru p3] eqn:Hupd.
    destruct (add_txt_record_conflict provider w self domain record_name
                record_content ttl api w1 t1 zone_records p1 rd p2 ru p3
                H1 Hinst Hget Hex Hdel Hupd) as (t & -> & Hcalls & _).
    exact Hcalls.
  - apply truthy_false in Hex.
    destruct (update_dns_records_v1 provider (access_token api) zone
                (mkUpdate [mkZoneInner name "TXT" ttl [mkContent record_content]] false)
                p1) as [ru p3] eqn:Hupd.
    destruct (add_txt_record_no_conflict provider w self domain record_name
                record_content ttl api w1 t1 zone_records p1 ru p3
                H1 Hinst Hget Hex Hupd) as (t & -> & Hcalls).
    exact Hcalls.
Qed.

(** The calls of [del_txt_record], when the client is obtained. *)
Lemma del_txt_record_calls w self domain record_name record_content api w1 t1 :
  _get_api_client self w = (Return api, w1, t1) ->
  hostinger_api_installed w = true ->
  calls (events (del_txt_record provider self domain record_name record_content w)) =
    [(api, delete_by_filter (zone_of domain)
             (subdomain_of record_name (zone_of domain)))].
Proof.
  intros H1 Hinst.
  destruct (delete_dns_records_v1 provider (access_token api) (zone_of domain)
              (mkDestroy [mkFilter (subdomain_of record_name (zone_of domain)) "TXT"])
              (remote w)) as [rd p2] eqn:Hdel.
  destruct (del_txt_record_called provider w self domain record_name record_content
              api w1 t1 rd p2 H1 Hinst Hdel) as (t & -> & Hcalls & _).
  exact Hcalls.
Qed.

(** Every run of [add_txt_record] that obtains its client ends in the world
    [_get_api_client] left, up to the provider's state, and issues one of
    four sequences of calls, all through that client. *)
Lemma add_txt_record_obtained w self domain record_name record_content ttl api w1 t1 :
  let zone := zone_of domain in
  let name := subdomain_of record_name zone in
  _get_api_client self w = (Return api, w1, t1) ->
  exists r p t,
    add_txt_record provider self domain record_name record_content ttl w =
      (r, set_remote p w1, t) /\
    (calls t = [] \/
     calls t = [(api, get_dns_records_v1_call zone)] \/
     calls t = [(api, get_dns_records_v1_call zone);
                (api, create_txt zone name record_content ttl)] \/
     calls t = [(api, get_dns_records_v1_call zone);
                (api, delete_by_filter zone name);
                (api, create_txt zone name record_content ttl)]).
Proof.
  intros zone name H1.
  destruct (hostinger_api_installed w) eqn:Hinst.
  - destruct (get_dns_records_v1 provider (access_token api) zone (remote w))
      as [[zone_records|e] p1] eqn:Hget.
    + destruct (Py.truthy (existing_acme name zone_records)) eqn:Hex.
      * apply truthy_true in Hex.
        destruct (delete_dns_records_v1 provider (access_token api) zone
                    (mkDestroy [mkFilter name "TXT"]) p1) as [rd p2] eqn:Hdel.
        destruct (update_dns_records_v1 provider (access_token api) zone
                    (mkUpdate [mkZoneInner name "TXT" ttl [mkContent record_content]]
                       false) p2) as [ru p3] eqn:Hupd.
        destruct (add_txt_record_conflict provider w self domain record_name
                    record_content ttl api w1 t1 zone_records p1 rd p2 ru p3
                    H1 Hinst Hget Hex Hdel Hupd) as (t & Hrun & Hcalls & _).
        eexists _, _, _. split; [exact Hrun | auto].
      * apply truthy_false in Hex.
        destruct (update_dns_records_v1 provider (access_token api) zone
                    (mkUpdate [mkZoneInner name "TXT" ttl [mkContent record_content]]
                       false) p1) as [ru p3] eqn:Hupd.
        destruct (add_txt_record_no_conflict provider w self domain record_name
                    record_content ttl api w1 t1 zone_records p1 ru p3
                    H1 Hinst Hget Hex Hupd) as (t & Hrun & Hcalls).
        eexists _, _, _. split; [exact Hrun | auto].
    + destruct (add_txt_record_list_fails provider w self domain record_name
                  record_content ttl api w1 t1 e p1 H1 Hinst Hget)
        as (t & Hrun & Hcalls).
      eexists _, _, _. split; [exact Hrun | auto].
  - destruct (add_txt_record_no_models provider w self domain record_name
                record_content ttl api w1 t1 H1 Hinst) as (t & Hrun & Hcalls).
    exists (Raise (add_error (ImportError "No module named 'hostinger_api'"))),
      (remote w1), t.
    rewrite set_remote_same. auto.
Qed.

(** The same for [del_txt_record]. *)
Lemma del_txt_record_obtained w self domain record_name record_content api w1 t1 :
  _get_api_client self w = (Return api, w1, t1) ->
  exists p t,
    del_txt_record provider self domain record_name record_content w =
      (Return tt, set_remote p w1, t) /\
    (calls t = [] \/
     calls t = [(api, delete_by_filter (zone_of domain)
                        (subdomain_of record_name (zone_of domain)))]).
Proof.
  intros H1.
  destruct (hostinger_api_installed w) eqn:Hinst.
  - destruct (delete_dns_records_v1 provider (access_token api) (zone_of domain)
                (mkDestroy [mkFilter (subdomain_of record_name (zone_of domain)) "TXT"])
                (remote w)) as [rd p2] eqn:Hdel.
    destruct (del_txt_record_called provider w self domain record_name record_content
                api w1 t1 rd p2 H1 Hinst Hdel) as (t & Hrun & Hcalls & _).
    eexists _, _. split; [exact Hrun | auto].
  - destruct (del_txt_record_no_models provider w self domain record_name
                record_content api w1 t1 H1 Hinst) as (t & Hrun & Hcalls).
    exists (remote w1), t. rewrite set_remote_same. auto.
Qed.

End Shapes.

(** ** The destroy path and the validation token *)

(** C9.  [del_txt_record] does not read the record content: two runs that
    differ only in it are the same run.  [_cleanup], which logs the
    validation token before delegating, issues the same requests, ends with
    the same outcome and leaves the same world for both tokens. *)
Theorem del_txt_record_ignores_content {P} (provider : Provider P) (w : World P)
    (self : nat) (auth : Authenticator) (domain record_name : string)
    (content1 content2 : string) :
  del_txt_record provider self domain record_name content1 w =
  del_txt_record provider self domain record_name content2 w /\
  (let run1 := _cleanup provider auth domain record_name content1 w in
   let run2 := _cleanup provider auth domain record_name content2 w in
   calls (events run1) = calls (events run2) /\
   result run1 = result run2 /\
   world_after run1 = world_after run2).
Proof.
  split; [reflexivity |].
  unfold _cleanup, bind, logger. simpl.
  destruct (_get_hostinger_client auth w) as [[[client|e] w1] t1]; simpl;
    [| done].
  change (del_txt_record provider client domain record_name content2 w1)
    with (del_txt_record provider client domain record_name content1 w1).
  destruct (del_txt_record provider client domain record_name content1 w1)
    as [[[[]|e] w2] t2]; done.
Qed.

(** ** The empty prefix *)

(** C10.  For a non-empty zone and the record name made of a dot and the
    zone, the relative name is the empty string, neither ["@"] nor the
    record name; [del_txt_record] then deletes by the name [""], and
    [add_txt_record] checks, deletes and creates under the name [""]. *)
Theorem empty_relative_name {P} (provider : Provider P) (w : World P)
    (self : nat) (zone domain record_content : string) (ttl : Z)
    (api : DNSZoneApi) (w1 : World P) (t1 : list event) :
  zone <> "" ->
  let record_name := "." +:+ zone in
  (subdomain_of record_name zone = "" /\
   subdomain_of record_name zone <> "@" /\
   subdomain_of record_name zone <> record_name) /\
  (zone_of domain = zone ->
   _get_api_client self w = (Return api, w1, t1) ->
   hostinger_api_installed w = true ->
   calls (events (del_txt_record provider self domain record_name record_content w)) =
     [(api, delete_by_filter zone "")] /\
   (forall zone_records p1,
      get_dns_records_v1 provider (access_token api) zone (remote w) =
        (Return zone_records, p1) ->
      calls (events (add_txt_record provider self domain record_name
                       record_content ttl w)) =
        (api, get_dns_records_v1_call zone) ::
        (if Py.truthy (existing_acme "" zone_records)
         then [(api, delete_by_filter zone "")] else []) ++
        [(api, create_txt zone "" record_content ttl)])).
Proof.
  intros Hne record_name.
  assert (subdomain_of record_name zone = "") as Hempty
    by apply (subdomain_of_strip "" zone).
  split.
  - rewrite Hempty. by repeat split.
  - intros <- H1 Hinst. split.
    + rewrite (del_txt_record_calls provider w self domain record_name
                 record_content api w1 t1 H1 Hinst).
      by rewrite Hempty.
    + intros zone_records p1 Hget.
      rewrite (add_txt_record_calls provider w self domain record_name
                 record_content ttl api w1 t1 zone_records p1 H1 Hinst Hget).
      by rewrite Hempty.
Qed.

Lemma empty_relative_name_witness :
  let api := mkApi 0 "test_token_123456789" in
  let w := client_world [("bbdevs.com", mkDnsRecord "" "TXT" "stale" 60)] in
  subdomain_of ".bbdevs.com" "bbdevs.com" = "" /\
  calls (events (del_txt_record Stub.provider 0 "sso.bbdevs.com" ".bbdevs.com"
                   "content" w)) =
    [(api, delete_by_filter "bbdevs.com" "")] /\
  calls (events (add_txt_record Stub.provider 0 "sso.bbdevs.com" ".bbdevs.com"
                   "content" 60 w)) =
    [(api, get_dns_records_v1_call "bbdevs.com");
     (api, delete_by_filter "bbdevs.com" "");
     (api, create_txt "bbdevs.com" "" "content" 60)].
Proof.
  intros api w.
  pose proof (empty_relative_name Stub.provider w 0 "bbdevs.com" "sso.bbdevs.com"
                "content" 60 api (world_after (_get_api_client 0 w))
                (events (_get_api_client 0 w)) ltac:(discriminate))
    as [Hname Hcalls].
  split; [exact (proj1 Hname) |].
  destruct (Hcalls eq_refl eq_refl eq_refl) as [Hdel Hadd].
  split; [exact Hdel | exact (Hadd _ _ eq_refl)].
Defined.

(** ** Runs against the in-memory provider *)

Lemma filter_filter_same {A} (f g : A -> bool) (l : list A) :
  (forall x, f x = g x) -> List.filter f (List.filter g l) = List.filter f l.
Proof.
  intros Hfg. induction l as [|x l IH]; [done |]. simpl.
  destruct (g x) eqn:Hg; simpl; rewrite Hfg, Hg; by rewrite IH.
Qed.

Lemma stub_others_after_add (zone name content : string) (ttl : Z) (s : Stub.state) :
  Stub.others zone name (stub_after_add zone name content ttl s) = Stub.others zone name s.
Proof.
  unfold Stub.others, stub_after_add. rewrite List.filter_app. simpl.
  rewrite !String.eqb_refl. simpl. rewrite app_nil_r.
  destruct (Py.truthy _); [| done].
  apply filter_filter_same. intros [z r]. simpl.
  unfold Stub.filter_matches. simpl. by rewrite orb_false_r, andb_assoc.
Qed.

Lemma stub_txt_at_app (zone name : string) (s1 s2 : Stub.state) :
  Stub.txt_at zone name (s1 ++ s2) = Stub.txt_at zone name s1 ++ Stub.txt_at zone name s2.
Proof.
  unfold Stub.txt_at, Stub.records_of.
  by rewrite List.filter_app, map_app, List.filter_app.
Qed.

Lemma stub_txt_at_deleted (zone name tok : string) (s : Stub.state) :
  Stub.txt_at zone name
    (Stub.delete_records tok zone (mkDestroy [mkFilter name "TXT"]) s).2 = [].
Proof.
  unfold Stub.txt_at, Stub.records_of, Stub.delete_records. simpl.
  induction s as [|[z r] s IH]; [done |]. simpl.
  unfold Stub.filter_matches at 1. simpl. rewrite orb_false_r.
  destruct (String.eqb z zone) eqn:Hz; simpl.
  - destruct (String.eqb (rr_name r) name && String.eqb (rr_type r) "TXT") eqn:Hr;
      simpl; [exact IH |].
    rewrite Hz. simpl. rewrite Hr. exact IH.
  - rewrite Hz. exact IH.
Qed.

(** After a successful [add_txt_record] there is exactly one TXT record at
    the relative name, the one just created. *)
Lemma stub_txt_at_after_add (zone name content : string) (ttl : Z) (s : Stub.state) :
  Stub.txt_at zone name (stub_after_add zone name content ttl s) =
    [mkDnsRecord name "TXT" content ttl].
Proof.
  unfold stub_after_add. rewrite stub_txt_at_app.
  assert (Stub.txt_at zone name [(zone, mkDnsRecord name "TXT" content ttl)] =
          [mkDnsRecord name "TXT" content ttl]) as ->.
  { unfold Stub.txt_at, Stub.records_of. simpl.
    rewrite String.eqb_refl. simpl. by rewrite String.eqb_refl. }
  destruct (Py.truthy (existing_acme name (Stub.records_of zone s))) eqn:Hex.
  - by rewrite stub_txt_at_deleted.
  - apply truthy_false in Hex.
    change (existing_acme name (Stub.records_of zone s)) with (Stub.txt_at zone name s) in Hex.
    by rewrite Hex.
Qed.

(** Against the in-memory provider, a run that obtains its client and finds
    the package installed succeeds. *)
Lemma stub_add_txt_record (w : World Stub.state) (self : nat)
    (domain record_name record_content : string) (ttl : Z)
    (api : DNSZoneApi) (w1 : World Stub.state) (t1 : list event) :
  let zone := zone_of domain in
  let name := subdomain_of record_name zone in
  _get_api_client self w = (Return api, w1, t1) ->
  hostinger_api_installed w = true ->
  exists t,
    add_txt_record Stub.provider self domain record_name record_content ttl w =
      (Return tt,
       set_remote (stub_after_add zone name record_content ttl (remote w)) w1, t).
Proof.
  intros zone name H1 Hinst. unfold stub_after_add.
  destruct (Py.truthy (existing_acme name (Stub.records_of zone (remote w)))) eqn:Hex.
  - apply truthy_true in Hex.
    destruct (add_txt_record_conflict Stub.provider w self domain record_name
                record_content ttl api w1 t1 _ _ _ _ _ _
                H1 Hinst eq_refl Hex eq_refl eq_refl) as (t & Hrun & _).
    by exists t.
  - apply truthy_false in Hex.
    destruct (add_txt_record_no_conflict Stub.provider w self domain record_name
                record_content ttl api w1 t1 _ _ _ _
                H1 Hinst eq_refl Hex eq_refl) as (t & Hrun & _).
    by exists t.
Qed.

(** C6.  Against the in-memory provider, for a client that exists and with
    the package installed: two calls of [add_txt_record] in a row with the
    same arguments both succeed, the second one deletes what the first one
    created before it creates again, and the zone then holds exactly one TXT
    record at the relative name, with the content and the ttl given. *)
Theorem add_txt_record_twice (w : World Stub.state) (self : nat) (c : HostingerClient)
    (domain record_name record_content : string) (ttl : Z) :
  let zone := zone_of domain in
  let name := subdomain_of record_name zone in
  let once :=
    add_txt_record Stub.provider self domain record_name record_content ttl w in
  let twice :=
    add_txt_record Stub.provider self domain record_name record_content ttl
      (world_after once) in
  heap w !! self = Some c ->
  hostinger_api_installed w = true ->
  result once = Return tt /\
  result twice = Return tt /\
  (exists api,
     calls (events twice) = [(api, get_dns_records_v1_call zone);
                             (api, delete_by_filter zone name);
                             (api, create_txt zone name record_content ttl)]) /\
  Stub.txt_at zone name (remote (world_after twice)) =
    [mkDnsRecord name "TXT" record_content ttl].
Proof.
  intros zone name once twice Hself Hinst. subst twice once.
  destruct (get_api_client_total w self c Hself Hinst) as (api & w1 & t1 & H1).
  destruct (stub_add_txt_record w self domain record_name record_content ttl
              api w1 t1 H1 Hinst) as (t & Hrun).
  destruct (get_api_client_Return w self api w1 t1 H1)
    as (_ & Hinst1 & _ & (tok & Hself1) & _).
  rewrite Hinst in Hinst1.
  fold zone in Hrun. fold name in Hrun.
  set (s1 := stub_after_add zone name record_content ttl (remote w)) in Hrun.
  rewrite Hrun.
  change (world_after (Return tt, set_remote s1 w1, t)) with (set_remote s1 w1).
  assert (heap (set_remote s1 w1) !! self = Some (mkClient tok (Some api))) as Hself2
    by exact Hself1.
  assert (hostinger_api_installed (set_remote s1 w1) = true) as Hinst2
    by exact Hinst1.
  pose proof (get_api_client_cached (set_remote s1 w1) self tok api Hself2) as H2.
  destruct (stub_add_txt_record (set_remote s1 w1) self domain record_name
              record_content ttl api _ _ H2 Hinst2) as (t' & Hrun').
  assert (Stub.txt_at zone name s1 = [mkDnsRecord name "TXT" record_content ttl])
    as Hone by apply stub_txt_at_after_add.
  pose proof (add_txt_record_calls Stub.provider (set_remote s1 w1) self domain
                record_name record_content ttl api _ _
                (Stub.records_of zone s1) s1 H2 Hinst2 eq_refl) as Hcalls.
  change (existing_acme _ _) with (Stub.txt_at zone name s1) in Hcalls.
  rewrite Hone in Hcalls.
  split; [done |]. split; [by rewrite Hrun' |]. split; [by exists api |].
  rewrite Hrun'. apply stub_txt_at_after_add.
Qed.

Lemma add_txt_record_twice_witness :
  let once :=
    add_txt_record Stub.provider 0 "sso.bbdevs.com" "_acme-challenge.sso.bbdevs.com"
      "tok123" 300 (client_world example_zone) in
  let twice :=
    add_txt_record Stub.provider 0 "sso.bbdevs.com" "_acme-challenge.sso.bbdevs.com"
      "tok123" 300 (world_after once) in
  result twice = Return tt /\
  Stub.txt_at "bbdevs.com" "_acme-challenge.sso" (remote (world_after twice)) =
    [mkDnsRecord "_acme-challenge.sso" "TXT" "tok123" 300].
Proof.
  intros once twice.
  destruct (add_txt_record_twice (client_world example_zone) 0
              (mkClient "test_token_123456789" None) "sso.bbdevs.com"
              "_acme-challenge.sso.bbdevs.com" "tok123" 300 eq_refl eq_refl)
    as (_ & Hok & _ & Hzone).
  split; [exact Hok | exact Hzone].
Defined.

(** C7.  Every update request [add_txt_record] issues, whatever the provider
    and the world, has [overwrite=False] and carries the one TXT entry of the
    relative name; and against the in-memory provider every record other
    than the TXT records of that name in that zone is left as it was. *)
Theorem add_txt_record_overwrite_false {P} (provider : Provider P) (w : World P)
    (ws : World Stub.state) (self : nat)
    (domain record_name record_content : string) (ttl : Z) :
  let zone := zone_of domain in
  let name := subdomain_of record_name zone in
  (forall a z rq,
     (a, update_dns_records_v1_call z rq) ∈
       calls (events (add_txt_record provider self domain record_name
                        record_content ttl w)) ->
     overwrite rq = false /\
     z = zone /\
     upd_zone rq = [mkZoneInner name "TXT" ttl [mkContent record_content]]) /\
  Stub.others zone name
    (remote (world_after (add_txt_record Stub.provider self domain record_name
                            record_content ttl ws))) =
  Stub.others zone name (remote ws).
Proof.
  intros zone name. split.
  - intros a z rq Hin.
    destruct (_get_api_client self w) as [[[api|e] w1] t1] eqn:H1.
    + destruct (add_txt_record_obtained provider w self domain record_name
                  record_content ttl api w1 t1 H1) as (r & p & t & Hrun & Hcalls).
      rewrite Hrun in Hin. unfold events in Hin. simpl in Hin.
      fold zone in Hcalls. fold name in Hcalls.
      destruct Hcalls as [Hc|[Hc|[Hc|Hc]]]; rewrite Hc in Hin;
        unfold create_txt, delete_by_filter in Hin;
        repeat (apply elem_of_cons in Hin as [Hin|Hin];
                [inversion Hin; by subst |]);
        by apply elem_of_nil in Hin.
    + rewrite (add_txt_record_no_client provider w self domain record_name
                 record_content ttl e w1 t1 H1) in Hin.
      destruct (get_api_client_Raise w self e w1 t1 H1) as [_ Hc1].
      unfold events in Hin. simpl in Hin.
      rewrite calls_app, Hc1 in Hin. by apply elem_of_nil in Hin.
  - destruct (_get_api_client self ws) as [[[api|e] w1] t1] eqn:H1.
    + destruct (get_api_client_Return ws self api w1 t1 H1) as (Hrem & _).
      destruct (hostinger_api_installed ws) eqn:Hinst.
      * destruct (stub_add_txt_record ws self domain record_name record_content ttl
                    api w1 t1 H1 Hinst) as (t & ->).
        unfold world_after. simpl. apply stub_others_after_add.
      * destruct (add_txt_record_no_models Stub.provider ws self domain record_name
                    record_content ttl api w1 t1 H1 Hinst) as (t & -> & _).
        unfold world_after. simpl. by rewrite Hrem.
    + rewrite (add_txt_record_no_client Stub.provider ws self domain record_name
                 record_content ttl e w1 t1 H1).
      destruct (get_api_client_Raise ws self e w1 t1 H1) as [-> _]. done.
Qed.

Lemma add_txt_record_overwrite_false_witness :
  let rq := mkUpdate [mkZoneInner "_acme-challenge" "TXT" 300 [mkContent "challenge"]]
              false in
  overwrite rq = false /\
  "bbdevs.com" = zone_of "bbdevs.com" /\
  upd_zone rq = [mkZoneInner (subdomain_of "_acme-challenge.bbdevs.com"
                                (zone_of "bbdevs.com"))
                   "TXT" 300 [mkContent "challenge"]].
Proof.
  intros rq.
  apply (proj1 (add_txt_record_overwrite_false Stub.provider
                  (client_world example_zone) (client_world example_zone) 0
                  "bbdevs.com" "_acme-challenge.bbdevs.com" "challenge" 300)
           (mkApi 0 "test_token_123456789") "bbdevs.com" rq).
  apply list_elem_of_In. right. right. left. reflexivity.
Defined.

(** ** The lifetime of the API client *)

(** [Authenticator._perform] then [Authenticator._cleanup], on one prepared
    authenticator, construct two API clients: the statement that one client
    serves both operations fails. *)
Lemma authenticator_builds_two_api_clients :
  let auth := prepared "test_token_123456789" in
  let w0 := fresh_world example_zone in
  let created :=
    _perform Stub.provider auth "bbdevs.com" "_acme-challenge.bbdevs.com"
      "test-challenge-content" w0 in
  let destroyed :=
    _cleanup Stub.provider auth "bbdevs.com" "_acme-challenge.bbdevs.com"
      "test-challenge-content" (world_after created) in
  result created = Return tt /\
  result destroyed = Return tt /\
  api_built (world_after destroyed) = 2%nat /\
  map (fun c => api_id c.1) (calls (events created ++ events destroyed)) =
    [0; 0; 0; 1]%nat /\
  ~ single_api_client w0 (world_after destroyed) (events created ++ events destroyed).
Proof.
  intros auth w0 created destroyed.
  repeat split; try reflexivity.
  intros [Hbuilt _]. vm_compute in Hbuilt. lia.
Qed.

Section Lifetime.
Context {P : Type} (provider : Provider P).
Implicit Types (w : World P) (self : nat).

Lemma run_operation_obtained w self op api w1 t1 :
  _get_api_client self w = (Return api, w1, t1) ->
  exists r p t,
    run_operation provider self op w = (r, set_remote p w1, t) /\
    Forall (fun c => c.1 = api) (calls t).
Proof.
  intros H1. destruct op as [domain record_name record_content ttl
                            |domain record_name record_content]; simpl.
  - destruct (add_txt_record_obtained provider w self domain record_name
                record_content ttl api w1 t1 H1) as (r & p & t & Hrun & Hcalls).
    exists r, p, t. split; [exact Hrun |].
    destruct Hcalls as [Hc|[Hc|[Hc|Hc]]]; rewrite Hc; repeat constructor.
  - destruct (del_txt_record_obtained provider w self domain record_name
                record_content api w1 t1 H1) as (p & t & Hrun & Hcalls).
    exists (Return tt), p, t. split; [exact Hrun |].
    destruct Hcalls as [Hc|Hc]; rewrite Hc; repeat constructor.
Qed.

Lemma run_operation_no_client w self op e w1 t1 :
  _get_api_client self w = (Raise e, w1, t1) ->
  exists r t, run_operation provider self op w = (r, w, t) /\ calls t = [].
Proof.
  intros H1. destruct (get_api_client_Raise w self e w1 t1 H1) as [-> Hc1].
  destruct op as [domain record_name record_content ttl
                 |domain record_name record_content]; simpl.
  - rewrite (add_txt_record_no_client provider w self domain record_name
               record_content ttl e w t1 H1).
    eexists _, _. split; [reflexivity |].
    trace_calls. by rewrite Hc1.
  - rewrite (del_txt_record_no_client provider w self domain record_name
               record_content e w t1 H1).
    eexists _, _. split; [reflexivity |].
    trace_calls. by rewrite Hc1.
Qed.

(** Once [self] holds an API client, every further operation uses it and
    none constructs another. *)
Lemma run_operations_cached self tok api (ops : list operation) w :
  heap w !! self = Some (mkClient tok (Some api)) ->
  api_built (run_operations provider self ops w).1 = api_built w /\
  Forall (fun c => c.1 = api) (calls (run_operations provider self ops w).2).
Proof.
  revert w. induction ops as [|op ops IH]; intros w Hself; simpl.
  - split; [done | constructor].
  - pose proof (get_api_client_cached w self tok api Hself) as H1.
    destruct (run_operation_obtained w self op api _ _ H1)
      as (r & p & t & -> & Hvia).
    destruct (IH (set_remote p w) Hself) as [Hbuilt Hvia'].
    destruct (run_operations provider self ops (set_remote p w)) as [w2 t2].
    simpl in *. split; [exact Hbuilt |].
    rewrite calls_app. by apply Forall_app.
Qed.

Lemma run_operations_single self (ops : list operation) w :
  single_api_client w (run_operations provider self ops w).1
    (run_operations provider self ops w).2.
Proof.
  revert w. induction ops as [|op ops IH]; intros w; simpl.
  - split; [simpl; lia | exists (mkApi 0 ""); constructor].
  - destruct (_get_api_client self w) as [[[api|e] w1] t1] eqn:H1.
    + destruct (run_operation_obtained w self op api w1 t1 H1)
        as (r & p & t & -> & Hvia).
      destruct (get_api_client_Return w self api w1 t1 H1)
        as (_ & _ & _ & (tok & Hself1) & Hbuilt).
      destruct (run_operations_cached self tok api ops (set_remote p w1) Hself1)
        as [Hbuilt' Hvia'].
      destruct (run_operations provider self ops (set_remote p w1)) as [w2 t2].
      simpl in *. split; [lia |].
      exists api. rewrite calls_app. by apply Forall_app.
    + destruct (run_operation_no_client w self op e w1 t1 H1)
        as (r & t & -> & Hnone).
      destruct (IH w) as [Hbuilt [a Hvia]].
      destruct (run_operations provider self ops w) as [w2 t2].
      simpl in *. split; [exact Hbuilt |].
      exists a. by rewrite calls_app, Hnone.
Qed.

End Lifetime.

(** C8 (per client instance).  On one [_HostingerClient], any sequence of
    [add_txt_record] and [del_txt_record] operations constructs at most one
    API client and every call of every operation goes through the same one;
    [_get_hostinger_client], on an authenticator with credentials, allocates
    a new [_HostingerClient] that has no API client yet, and constructs
    none. *)
Theorem single_api_client_per_hostinger_client {P} (provider : Provider P)
    (w : World P) (self : nat) (ops : list operation)
    (creds : CredentialsConfiguration) (ttl0 : Z) :
  single_api_client w (run_operations provider self ops w).1
    (run_operations provider self ops w).2 /\
  (let obtained := _get_hostinger_client (mkAuthenticator (Some creds) ttl0) w in
   result obtained = Return (length (heap w)) /\
   heap (world_after obtained) = heap w ++ [mkClient (conf creds "api-token") None] /\
   api_built (world_after obtained) = api_built w).
Proof.
  split; [apply run_operations_single | by repeat split].
Qed.

(** * Further properties of the module *)

(** ** Zones and the names below them *)

Section Zones.
Import Py.

Lemma str_join_cons2 sep (x y : string) (l : list string) :
  str_join sep (x :: y :: l) = x +:+ sep +:+ str_join sep (y :: l).
Proof. reflexivity. Qed.

Lemma str_join_cons_char sep c (p : string) (ps : list string) :
  str_join sep (String c p :: ps) = String c (str_join sep (p :: ps)).
Proof. by destruct ps. Qed.

Lemma str_join_app sep (l1 l2 : list string) :
  l1 <> [] -> l2 <> [] ->
  str_join sep (l1 ++ l2) = str_join sep l1 +:+ sep +:+ str_join sep l2.
Proof.
  intros H1 H2. induction l1 as [|x [|x' l1] IH]; [done | |].
  - destruct l2 as [|y l2]; [done |]. reflexivity.
  - change ((x :: x' :: l1) ++ l2) with (x :: x' :: (l1 ++ l2)).
    rewrite !str_join_cons2.
    change (x' :: l1 ++ l2) with ((x' :: l1) ++ l2).
    rewrite IH by done. by rewrite !string_app_assoc.
Qed.

(** Joining undoes splitting, for every string. *)
Lemma str_join_split sep (s : string) :
  str_join (String sep "") (str_split sep s) = s.
Proof.
  induction s as [|c s IH]; [done |]. simpl.
  destruct (Ascii.eqb c sep) eqn:Hc.
  - apply Ascii.eqb_eq in Hc as ->.
    destruct (str_split sep s) as [|p ps] eqn:E; [by destruct (str_split_nonempty sep s) |].
    rewrite str_join_cons2, IH. reflexivity.
  - destruct (str_split sep s) as [|p ps] eqn:E; [by destruct (str_split_nonempty sep s) |].
    by rewrite str_join_cons_char, IH.
Qed.

Lemma str_split_parts sep (s : string) :
  Forall (fun l => has_char sep l = false) (str_split sep s).
Proof.
  induction s as [|c s IH]; simpl; [by repeat constructor |].
  destruct (Ascii.eqb c sep) eqn:Hc.
  - by constructor.
  - destruct (str_split sep s) as [|p ps]; [by repeat constructor; simpl; rewrite Hc |].
    inversion IH; subst. constructor; [| done]. simpl. by rewrite Hc.
Qed.

Lemma list_last_two {A} (l : list A) :
  (2 <= length l)%nat -> exists pre a b, l = pre ++ [a; b].
Proof.
  induction l as [|x [|y [|z l]] IH]; simpl; intros Hlen; try lia.
  - by exists [], x, y.
  - destruct IH as (pre & a & b & E); [simpl; lia |].
    exists (x :: pre), a, b. by rewrite E.
Qed.

(** Every domain is a single dot-free label, which is its own zone, or is
    made of dot-free labels of which the last two form its zone. *)
Lemma zone_of_cases (domain : string) :
  (has_char "." domain = false /\ zone_of domain = domain) \/
  (exists pre a b,
     Forall (fun l => has_char "." l = false) (pre ++ [a; b]) /\
     domain = str_join "." (pre ++ [a; b]) /\
     zone_of domain = a +:+ "." +:+ b).
Proof.
  pose proof (str_join_split "." domain) as Hjoin.
  pose proof (str_split_parts "." domain) as Hparts.
  destruct (decide (2 <= length (str_split "." domain))%nat) as [Hlen|Hlen].
  - right. destruct (list_last_two _ Hlen) as (pre & a & b & E).
    rewrite E in Hjoin, Hparts. exists pre, a, b.
    split; [done |]. split; [done |].
    unfold zone_of. rewrite <- Hjoin. by apply get_root_domain_joined.
  - left. destruct (str_split "." domain) as [|p [|q ps]] eqn:E;
      [by destruct (str_split_nonempty "." domain) | | simpl in Hlen; lia].
    simpl in Hjoin. subst p. inversion Hparts; subst.
    split; [done |]. by apply get_root_domain_single.
Qed.

End Zones.

Lemma domain_in_zone (domain : string) :
  domain = zone_of domain \/ exists y, domain = y +:+ "." +:+ zone_of domain.
Proof.
  destruct (zone_of_cases domain) as [[_ ->]|(pre & a & b & _ & Hd & ->)];
    [by left |].
  destruct pre as [|p pre]; [by left |].
  right. exists (Py.str_join "." (p :: pre)).
  rewrite Hd. by apply (str_join_app "." (p :: pre) [a; b]).
Qed.

(** X1.  Resolving the zone of a zone changes nothing, and a zone never has
    more than two labels. *)
Theorem zone_of_idempotent (domain : string) :
  zone_of (zone_of domain) = zone_of domain /\
  (length (Py.str_split "." (zone_of domain)) <= 2)%nat.
Proof.
  destruct (zone_of_cases domain) as [[Hdot ->]|(pre & a & b & Hall & _ & ->)].
  - split.
    + by apply get_root_domain_single.
    + rewrite str_split_no_sep by done. simpl. lia.
  - apply Forall_app in Hall as [_ Hab].
    split.
    + by apply (get_root_domain_joined [] a b).
    + change (a +:+ "." +:+ b) with (Py.str_join "." [a; b]).
      rewrite str_split_join by done. simpl. lia.
Qed.

(** X2.  A domain always lies in its own zone: as a record name it is the
    apex ["@"] when it is the zone, and otherwise what precedes the dot and
    the zone; the branch for names outside the zone is never taken. *)
Theorem domain_relative_to_its_zone (domain : string) :
  (domain = zone_of domain /\ subdomain_of domain (zone_of domain) = "@") \/
  (exists y, domain = y +:+ "." +:+ zone_of domain /\
             subdomain_of domain (zone_of domain) = y).
Proof.
  destruct (domain_in_zone domain) as [Hd|[y Hd]].
  - left. split; [done |]. rewrite Hd at 1. apply subdomain_of_apex.
  - right. exists y. split; [done |]. rewrite Hd at 1. apply subdomain_of_strip.
Qed.

Lemma relative_name_below (x domain zone : string) :
  domain = zone \/ (exists y, domain = y +:+ "." +:+ zone) ->
  subdomain_of (x +:+ "." +:+ domain) zone +:+ "." +:+ zone = x +:+ "." +:+ domain /\
  (domain = zone -> subdomain_of (x +:+ "." +:+ domain) zone = x) /\
  (forall y, domain = y +:+ "." +:+ zone ->
     subdomain_of (x +:+ "." +:+ domain) zone = x +:+ "." +:+ y).
Proof.
  intros Hin.
  assert (forall y, x +:+ "." +:+ y +:+ "." +:+ zone =
                    (x +:+ "." +:+ y) +:+ "." +:+ zone) as Hre
    by (intros y; by rewrite !string_app_assoc).
  split; [| split].
  - destruct Hin as [->|[y ->]].
    + by rewrite subdomain_of_strip.
    + by rewrite Hre, subdomain_of_strip.
  - intros ->. apply subdomain_of_strip.
  - intros y ->. rewrite Hre. apply subdomain_of_strip.
Qed.

(** X3.  For every prefix [x] and every domain, the name [x], a dot and the
    domain is taken relative to the zone of the domain by stripping the dot
    and the zone, so the relative name, a dot and the zone give the name
    back; the relative name is [x] when the domain is its zone and [x], a
    dot and the rest of the domain otherwise. *)
Theorem validation_name_round_trip (x domain : string) :
  let zone := zone_of domain in
  let record_name := x +:+ "." +:+ domain in
  subdomain_of record_name zone +:+ "." +:+ zone = record_name /\
  (domain = zone -> subdomain_of record_name zone = x) /\
  (forall y, domain = y +:+ "." +:+ zone ->
     subdomain_of record_name zone = x +:+ "." +:+ y).
Proof.
  intros zone record_name.
  apply relative_name_below. apply domain_in_zone.
Qed.

Lemma validation_name_round_trip_witness :
  subdomain_of "_acme-challenge.auth.sso.bbdevs.com" "bbdevs.com" =
    "_acme-challenge.auth.sso" /\
  subdomain_of "_acme-challenge.bbdevs.com" "bbdevs.com" = "_acme-challenge".
Proof.
  split.
  - apply (proj2 (proj2 (validation_name_round_trip "_acme-challenge"
                           "auth.sso.bbdevs.com")) "auth.sso" eq_refl).
  - apply (proj1 (proj2 (validation_name_round_trip "_acme-challenge"
                           "bbdevs.com")) eq_refl).
Defined.

(** ** Record names that share a relative name *)

Section SameRelativeName.
Context {P : Type} (provider : Provider P).

(** The record name enters [del_txt_record] and [add_txt_record] through its
    relative name only. *)
Lemma del_txt_record_by_relative_name (w : World P) (self : nat)
    (domain r1 r2 content : string) :
  subdomain_of r1 (zone_of domain) = subdomain_of r2 (zone_of domain) ->
  del_txt_record provider self domain r1 content w =
  del_txt_record provider self domain r2 content w.
Proof.
  intros H. unfold del_txt_record, bind, try_except, logger, traced.
  destruct (_get_api_client self w) as [[[api|e] w1] t1]; [| done].
  simpl. fold (zone_of domain). by rewrite H.
Qed.

Lemma add_txt_record_by_relative_name (w : World P) (self : nat)
    (domain r1 r2 content : string) (ttl : Z) :
  subdomain_of r1 (zone_of domain) = subdomain_of r2 (zone_of domain) ->
  add_txt_record provider self domain r1 content ttl w =
  add_txt_record provider self domain r2 content ttl w.
Proof.
  intros H. unfold add_txt_record, bind, try_except, logger, traced.
  destruct (_get_api_client self w) as [[[api|e] w1] t1]; [| done].
  simpl. fold (zone_of domain). by rewrite H.
Qed.

End SameRelativeName.

(** X4.  A record name [x] outside the zone has the relative name of [x], a
    dot and the zone, and the name ["@"], a dot and the zone has the
    relative name of the zone itself: [add_txt_record] and [del_txt_record]
    run identically on the two names of each pair. *)
Theorem record_names_collide {P} (provider : Provider P) (w : World P) (self : nat)
    (domain x content : string) (ttl : Z) :
  let zone := zone_of domain in
  ((forall y, x <> y +:+ "." +:+ zone) -> x <> zone ->
   subdomain_of x zone = subdomain_of (x +:+ "." +:+ zone) zone /\
   del_txt_record provider self domain x content w =
     del_txt_record provider self domain (x +:+ "." +:+ zone) content w /\
   add_txt_record provider self domain x content ttl w =
     add_txt_record provider self domain (x +:+ "." +:+ zone) content ttl w) /\
  (subdomain_of ("@" +:+ "." +:+ zone) zone = subdomain_of zone zone /\
   del_txt_record provider self domain ("@" +:+ "." +:+ zone) content w =
     del_txt_record provider self domain zone content w /\
   add_txt_record provider self domain ("@" +:+ "." +:+ zone) content ttl w =
     add_txt_record provider self domain zone content ttl w).
Proof.
  intros zone. split.
  - intros Hout Hne.
    assert (subdomain_of x zone = subdomain_of (x +:+ "." +:+ zone) zone) as H
      by (by rewrite subdomain_of_outside, subdomain_of_strip).
    split; [exact H |]. split.
    + by apply del_txt_record_by_relative_name.
    + by apply add_txt_record_by_relative_name.
  - assert (subdomain_of ("@" +:+ "." +:+ zone) zone = subdomain_of zone zone) as H
      by (by rewrite subdomain_of_strip, subdomain_of_apex).
    split; [exact H |]. split.
    + by apply del_txt_record_by_relative_name.
    + by apply add_txt_record_by_relative_name.
Qed.

Lemma record_names_collide_witness :
  del_txt_record Stub.provider 0 "bbdevs.com" "_acme-challenge" "content"
    (client_world example_zone) =
  del_txt_record Stub.provider 0 "bbdevs.com" "_acme-challenge.bbdevs.com" "content"
    (client_world example_zone).
Proof.
  refine (proj1 (proj2 (proj1 (record_names_collide Stub.provider
            (client_world example_zone) 0 "bbdevs.com" "_acme-challenge"
            "content" 60) _ _))).
  - intros y Hy.
    apply (f_equal (fun s => Py.str_endswith s ("." +:+ "bbdevs.com"))) in Hy.
    rewrite str_endswith_app in Hy. vm_compute in Hy. discriminate.
  - discriminate.
Defined.

(** ** The requests a run may issue *)

(** X5.  Whatever the provider answers and whatever the world, one run of
    [add_txt_record] issues nothing, or the listing alone, or the listing and
    the create, or the listing, one delete and the create, in that order; one
    run of [del_txt_record] issues nothing or one delete.  All of them are on
    the zone of the domain and go through one API client: no request is
    repeated and none is issued on another zone. *)
Theorem requests_of_a_run {P} (provider : Provider P) (w : World P) (self : nat)
    (domain record_name record_content : string) (ttl : Z) :
  let zone := zone_of domain in
  let name := subdomain_of record_name zone in
  let added :=
    calls (events (add_txt_record provider self domain record_name record_content
                     ttl w)) in
  let deleted :=
    calls (events (del_txt_record provider self domain record_name record_content w)) in
  exists api,
    (added = [] \/
     added = [(api, get_dns_records_v1_call zone)] \/
     added = [(api, get_dns_records_v1_call zone);
              (api, create_txt zone name record_content ttl)] \/
     added = [(api, get_dns_records_v1_call zone);
              (api, delete_by_filter zone name);
              (api, create_txt zone name record_content ttl)]) /\
    (deleted = [] \/ deleted = [(api, delete_by_filter zone name)]).
Proof.
  intros zone name added deleted. subst added deleted.
  destruct (_get_api_client self w) as [[[api|e] w1] t1] eqn:H1.
  - exists api. split.
    + destruct (add_txt_record_obtained provider w self domain record_name
                  record_content ttl api w1 t1 H1) as (r & p & t & -> & Hcalls).
      exact Hcalls.
    + destruct (del_txt_record_obtained provider w self domain record_name
                  record_content api w1 t1 H1) as (p & t & -> & Hcalls).
      exact Hcalls.
  - exists (mkApi 0 "").
    destruct (get_api_client_Raise w self e w1 t1 H1) as [_ Hc1].
    rewrite (add_txt_record_no_client provider w self domain record_name
               record_content ttl e w1 t1 H1).
    rewrite (del_txt_record_no_client provider w self domain record_name
               record_content e w1 t1 H1).
    unfold events. simpl. split; left; trace_calls; by rewrite Hc1.
Qed.

(** X6.  When the listing fails, [add_txt_record] issues no other request:
    no record is deleted and none is created, and the provider is left in
    the state the failed listing put it in. *)
Theorem failed_listing_stops_the_run {P} (provider : Provider P) (w : World P)
    (self : nat) (domain record_name record_content : string) (ttl : Z)
    (api : DNSZoneApi) (w1 : World P) (t1 : list event) (e : exn) (p1 : P) :
  let run := add_txt_record provider self domain record_name record_content ttl w in
  _get_api_client self w = (Return api, w1, t1) ->
  hostinger_api_installed w = true ->
  get_dns_records_v1 provider (access_token api) (zone_of domain) (remote w) =
    (Raise e, p1) ->
  calls (events run) = [(api, get_dns_records_v1_call (zone_of domain))] /\
  remote (world_after run) = p1.
Proof.
  intros run H1 Hinst Hget. subst run.
  destruct (add_txt_record_list_fails provider w self domain record_name
              record_content ttl api w1 t1 e p1 H1 Hinst Hget) as (t & -> & Hcalls).
  by split.
Qed.

Lemma failed_listing_stops_the_run_witness :
  let run :=
    add_txt_record Faulty.provider 0 "bbdevs.com" "_acme-challenge.bbdevs.com"
      "content" 300 (client_world (example_zone, Faulty.mkPlan true false false)) in
  calls (events run) =
    [(mkApi 0 "test_token_123456789", get_dns_records_v1_call "bbdevs.com")] /\
  remote (world_after run) = (example_zone, Faulty.mkPlan true false false).
Proof.
  exact (failed_listing_stops_the_run Faulty.provider
           (client_world (example_zone, Faulty.mkPlan true false false)) 0
           "bbdevs.com" "_acme-challenge.bbdevs.com" "content" 300
           _ _ _ (Exception "API Error") _ eq_refl eq_refl eq_refl).
Defined.

(** ** The API client of one [_HostingerClient] *)

(** X11.  [_get_api_client] is idempotent: after a call that returned a
    client, the next call returns the same client, logs that it was obtained
    and changes nothing; after a call that raised, the world is as it was
    before, so the failure is not remembered. *)
Theorem get_api_client_again {P} (w : World P) (self : nat)
    (r : outcome DNSZoneApi) (w1 : World P) (t1 : list event) :
  _get_api_client self w = (r, w1, t1) ->
  match r with
  | Return api =>
      _get_api_client self w1 =
        (Return api, w1, [Log INFO "Hostinger API client obtained"])
  | Raise e => w1 = w
  end.
Proof.
  intros H1. destruct r as [api|e].
  - destruct (get_api_client_Return w self api w1 t1 H1)
      as (_ & _ & _ & (tok & Hself1) & _).
    by apply (get_api_client_cached w1 self tok api).
  - by destruct (get_api_client_Raise w self e w1 t1 H1).
Qed.

Lemma get_api_client_again_witness :
  let first := _get_api_client 0 (client_world example_zone) in
  _get_api_client 0 (world_after first) =
    (Return (mkApi 0 "test_token_123456789"), world_after first,
     [Log INFO "Hostinger API client obtained"]).
Proof.
  exact (get_api_client_again (client_world example_zone) 0 _ _ _ eq_refl).
Defined.

(** X12.  With the [hostinger_api] package missing, a client that has no API
    client yet makes [add_txt_record] raise [errors.PluginError] whose cause
    is the [errors.PluginError] of [_get_api_client], whose cause is the
    [ImportError]; [del_txt_record] returns normally.  Neither issues a
    request nor changes the world. *)
Theorem missing_package {P} (provider : Provider P) (w : World P) (self : nat)
    (token domain record_name record_content : string) (ttl : Z) :
  let added := add_txt_record provider self domain record_name record_content ttl w in
  let deleted := del_txt_record provider self domain record_name record_content w in
  let not_imported :=
    errors_PluginError
      "Could not import hostinger-api. Please install it with: pip install hostinger-api"
      (ImportError "No module named 'hostinger_api'") in
  heap w !! self = Some (mkClient token None) ->
  hostinger_api_installed w = false ->
  result added =
    Raise (errors_PluginError
             ("Encountered error adding TXT record: " +:+ str_of_exn not_imported)
             not_imported) /\
  calls (events added) = [] /\ world_after added = w /\
  result deleted = Return tt /\
  calls (events deleted) = [] /\ world_after deleted = w.
Proof.
  intros added deleted not_imported Hself Hinst. subst added deleted.
  pose proof (get_api_client_not_installed w self token Hself Hinst) as H1.
  rewrite (add_txt_record_no_client provider w self domain record_name
             record_content ttl _ _ _ H1).
  rewrite (del_txt_record_no_client provider w self domain record_name
             record_content _ _ _ H1).
  by repeat split.
Qed.

Lemma missing_package_witness :
  let w := mkWorld example_zone false [mkClient "test_token_123456789" None] 0 in
  calls (events (add_txt_record Stub.provider 0 "bbdevs.com"
                   "_acme-challenge.bbdevs.com" "content" 300 w)) = [] /\
  result (del_txt_record Stub.provider 0 "bbdevs.com"
            "_acme-challenge.bbdevs.com" "content" w) = Return tt.
Proof.
  intros w.
  destruct (missing_package Stub.provider w 0 "test_token_123456789" "bbdevs.com"
              "_acme-challenge.bbdevs.com" "content" 300 eq_refl eq_refl)
    as (_ & Hadd & _ & Hdel & _).
  split; [exact Hadd | exact Hdel].
Defined.

(** ** The challenge hooks *)

Section Hooks.
Context {P : Type} (provider : Provider P).
Implicit Types (w : World P) (self : Authenticator).

(** The world in which the hooks run their client method: [w] with one more
    [_HostingerClient], at the first free address. *)
Lemma get_hostinger_client_run w self creds :
  credentials self = Some creds ->
  _get_hostinger_client self w =
    (Return (length (heap w)),
     set_heap (heap w ++ [mkClient (conf creds "api-token") None]) w,
     [Log INFO "Getting Hostinger client";
      Log INFO "Initializing Hostinger client";
      Log INFO "Hostinger client initialized"]).
Proof.
  intros H. unfold _get_hostinger_client, bind, logger. by rewrite H.
Qed.

(** [_perform] is [add_txt_record] on a new client: same outcome, same final
    world, same requests. *)
Lemma perform_run w self creds domain validation_name validation :
  credentials self = Some creds ->
  let inner :=
    add_txt_record provider (length (heap w)) domain validation_name validation
      (auth_ttl self)
      (set_heap (heap w ++ [mkClient (conf creds "api-token") None]) w) in
  let run := _perform provider self domain validation_name validation w in
  result run = result inner /\
  world_after run = world_after inner /\
  calls (events run) = calls (events inner).
Proof.
  intros H inner run. subst run inner. unfold _perform, bind, logger.
  rewrite (get_hostinger_client_run w self creds H).
  destruct (add_txt_record _ _ _ _ _ _ _) as [[[[]|e] w2] t2];
    unfold result, world_after, events; simpl;
    (split; [done | split; [done |]]); trace_calls; done.
Qed.

(** [_cleanup] is [del_txt_record] on a new client. *)
Lemma cleanup_run w self creds domain validation_name validation :
  credentials self = Some creds ->
  let inner :=
    del_txt_record provider (length (heap w)) domain validation_name validation
      (set_heap (heap w ++ [mkClient (conf creds "api-token") None]) w) in
  let run := _cleanup provider self domain validation_name validation w in
  result run = result inner /\
  world_after run = world_after inner /\
  calls (events run) = calls (events inner).
Proof.
  intros H inner run. subst run inner. unfold _cleanup, bind, logger.
  rewrite (get_hostinger_client_run w self creds H).
  destruct (del_txt_record _ _ _ _ _ _) as [[[[]|e] w2] t2];
    unfold result, world_after, events; simpl;
    (split; [done | split; [done |]]); trace_calls; done.
Qed.

(** The new client obtains its API client on first use. *)
Lemma new_client_first_use w token :
  hostinger_api_installed w = true ->
  _get_api_client (length (heap w))
    (set_heap (heap w ++ [mkClient token None]) w) =
    (Return (mkApi (api_built w) token),
     set_heap (<[length (heap w) := mkClient token (Some (mkApi (api_built w) token))]>
                 (heap w ++ [mkClient token None]))
       (set_api_built (S (api_built w))
          (set_heap (heap w ++ [mkClient token None]) w)),
     [Log INFO "Initializing Hostinger API client";
      Log INFO "Hostinger API client initialized";
      Log INFO "Hostinger API client obtained"]).
Proof.
  intros Hinst.
  apply (get_api_client_first_use
           (set_heap (heap w ++ [mkClient token None]) w) (length (heap w)) token);
    [| exact Hinst].
  simpl. by apply list_lookup_middle.
Qed.

End Hooks.

(** X7.  On an authenticator whose credentials were never set up, [_perform]
    and [_cleanup] both raise [errors.Error] with the message that the plugin
    has not been prepared; the error is not wrapped, no client is allocated,
    no request is issued and the world is unchanged. *)
Theorem unprepared_authenticator {P} (provider : Provider P) (w : World P)
    (self : Authenticator) (domain validation_name validation : string) :
  let created := _perform provider self domain validation_name validation w in
  let destroyed := _cleanup provider self domain validation_name validation w in
  credentials self = None ->
  result created = Raise (errors_Error "Plugin has not been prepared.") /\
  world_after created = w /\ calls (events created) = [] /\
  result destroyed = Raise (errors_Error "Plugin has not been prepared.") /\
  world_after destroyed = w /\ calls (events destroyed) = [].
Proof.
  intros created destroyed H. subst created destroyed.
  unfold _perform, _cleanup, _get_hostinger_client, bind, logger, raise.
  rewrite H. by repeat split.
Qed.

Lemma unprepared_authenticator_witness :
  result (_cleanup Stub.provider Authenticator_init "bbdevs.com"
            "_acme-challenge.bbdevs.com" "content" (fresh_world example_zone)) =
    Raise (errors_Error "Plugin has not been prepared.").
Proof.
  exact (proj1 (proj2 (proj2 (proj2 (unprepared_authenticator Stub.provider
           (fresh_world example_zone) Authenticator_init "bbdevs.com"
           "_acme-challenge.bbdevs.com" "content" eq_refl))))).
Defined.

(** X8.  On an authenticator with credentials, [_cleanup] returns normally
    whatever the provider answers and whatever the world is, and issues at
    most one request. *)
Theorem cleanup_returns {P} (provider : Provider P) (w : World P)
    (self : Authenticator) (creds : CredentialsConfiguration)
    (domain validation_name validation : string) :
  let run := _cleanup provider self domain validation_name validation w in
  credentials self = Some creds ->
  result run = Return tt /\ (length (calls (events run)) <= 1)%nat.
Proof.
  intros run H. subst run.
  destruct (cleanup_run provider w self creds domain validation_name validation H)
    as (-> & _ & ->).
  split; [apply del_txt_record_returns |].
  set (w' := set_heap _ w).
  destruct (_get_api_client (length (heap w)) w') as [[[api|e] w1] t1] eqn:H1.
  - destruct (del_txt_record_obtained provider w' (length (heap w)) domain
                validation_name validation api w1 t1 H1) as (p & t & -> & [Hc|Hc]);
      unfold events; simpl; rewrite Hc; simpl; lia.
  - rewrite (del_txt_record_no_client provider w' (length (heap w)) domain
               validation_name validation e w1 t1 H1).
    destruct (get_api_client_Raise w' _ e w1 t1 H1) as [_ Hc1].
    unfold events. simpl. trace_calls. rewrite Hc1. simpl. lia.
Qed.

Lemma cleanup_returns_witness :
  result (_cleanup Faulty.provider (prepared "test_token_123456789") "bbdevs.com"
            "_acme-challenge.bbdevs.com" "content"
            (fresh_world (example_zone, Faulty.mkPlan false true false))) =
    Return tt.
Proof.
  exact (proj1 (cleanup_returns Faulty.provider
           (fresh_world (example_zone, Faulty.mkPlan false true false))
           (prepared "test_token_123456789") _ "bbdevs.com"
           "_acme-challenge.bbdevs.com" "content" eq_refl)).
Defined.

(** X9.  On an authenticator with credentials, with the package installed
    and a listing that answers, [_perform] issues the listing, the delete if
    a listed record conflicts, and the create, all through an API client
    that is new and carries the token of the credentials; the record created
    has the validation as content and the ttl of the authenticator; the
    outcome of [_perform] is that of the create. *)
Theorem perform_requests {P} (provider : Provider P) (w : World P)
    (self : Authenticator) (creds : CredentialsConfiguration)
    (domain validation_name validation : string)
    (zone_records : list DnsRecord) (p1 : P) :
  let zone := zone_of domain in
  let name := subdomain_of validation_name zone in
  let api := mkApi (api_built w) (conf creds "api-token") in
  let run := _perform provider self domain validation_name validation w in
  let p2 :=
    if Py.truthy (existing_acme name zone_records)
    then (delete_dns_records_v1 provider (access_token api) zone
            (mkDestroy [mkFilter name "TXT"]) p1).2
    else p1 in
  credentials self = Some creds ->
  hostinger_api_installed w = true ->
  get_dns_records_v1 provider (access_token api) zone (remote w) =
    (Return zone_records, p1) ->
  calls (events run) =
    (api, get_dns_records_v1_call zone) ::
    (if Py.truthy (existing_acme name zone_records)
     then [(api, delete_by_filter zone name)] else []) ++
    [(api, create_txt zone name validation (auth_ttl self))] /\
  result run =
    match (update_dns_records_v1 provider (access_token api) zone
             (mkUpdate [mkZoneInner name "TXT" (auth_ttl self) [mkContent validation]]
                false) p2).1 with
    | Return _ => Return tt
    | Raise e =>
        Raise (errors_PluginError
                 ("Encountered error adding TXT record: " +:+ str_of_exn e) e)
    end.
Proof.
  intros zone name api run p2 Hcreds Hinst Hget. subst run.
  destruct (perform_run provider w self creds domain validation_name validation
              Hcreds) as (-> & _ & ->).
  set (w' := set_heap (heap w ++ [mkClient (conf creds "api-token") None]) w).
  pose proof (new_client_first_use w (conf creds "api-token") Hinst) as H1.
  fold w' in H1. fold api in H1.
  assert (hostinger_api_installed w' = true) as Hinst' by exact Hinst.
  assert (get_dns_records_v1 provider (access_token api) zone (remote w') =
            (Return zone_records, p1)) as Hget' by exact Hget.
  split.
  - exact (add_txt_record_calls provider w' (length (heap w)) domain validation_name
             validation (auth_ttl self) api _ _ zone_records p1 H1 Hinst' Hget').
  - subst p2. fold name.
    destruct (Py.truthy (existing_acme name zone_records)) eqn:Hex.
    + apply truthy_true in Hex.
      destruct (delete_dns_records_v1 provider (access_token api) zone
                  (mkDestroy [mkFilter name "TXT"]) p1) as [rd pd] eqn:Hdel.
      change ((rd, pd).2) with pd.
      destruct (update_dns_records_v1 provider (access_token api) zone
                  (mkUpdate [mkZoneInner name "TXT" (auth_ttl self)
                               [mkContent validation]] false) pd)
        as [ru p3] eqn:Hupd.
      destruct (add_txt_record_conflict provider w' (length (heap w)) domain
                  validation_name validation (auth_ttl self) api _ _ zone_records
                  p1 rd pd ru p3 H1 Hinst' Hget' Hex Hdel Hupd) as (t & -> & _).
      done.
    + apply truthy_false in Hex.
      destruct (update_dns_records_v1 provider (access_token api) zone
                  (mkUpdate [mkZoneInner name "TXT" (auth_ttl self)
                               [mkContent validation]] false) p1)
        as [ru p3] eqn:Hupd.
      destruct (add_txt_record_no_conflict provider w' (length (heap w)) domain
                  validation_name validation (auth_ttl self) api _ _ zone_records
                  p1 ru p3 H1 Hinst' Hget' Hex Hupd) as (t & -> & _).
      done.
Qed.

Lemma perform_requests_witness :
  let api := mkApi 0 "test_token_123456789" in
  calls (events (_perform Stub.provider (prepared "test_token_123456789")
                   "sso.bbdevs.com" "_acme-challenge.sso.bbdevs.com" "tok123"
                   (fresh_world example_zone))) =
    [(api, get_dns_records_v1_call "bbdevs.com");
     (api, create_txt "bbdevs.com" "_acme-challenge.sso" "tok123" 60)].
Proof.
  exact (proj1 (perform_requests Stub.provider (fresh_world example_zone)
           (prepared "test_token_123456789") _ "sso.bbdevs.com"
           "_acme-challenge.sso.bbdevs.com" "tok123" _ _ eq_refl eq_refl eq_refl)).
Defined.

(** ** What an operation leaves alone *)

Section Isolation.
Context {P : Type} (provider : Provider P).
Implicit Types (w : World P) (self other : nat).

Lemma get_api_client_frame w self r w1 t1 other :
  _get_api_client self w = (r, w1, t1) ->
  other <> self ->
  heap w1 !! other = heap w !! other /\
  length (heap w1) = length (heap w) /\
  hostinger_api_installed w1 = hostinger_api_installed w.
Proof.
  intros Hrun Hne.
  destruct (heap w !! self) as [[tok [a|]]|] eqn:Hself.
  - rewrite (get_api_client_cached w self tok a Hself) in Hrun.
    by inversion Hrun; subst.
  - destruct (hostinger_api_installed w) eqn:Hinst.
    + rewrite (get_api_client_first_use w self tok Hself Hinst) in Hrun.
      inversion Hrun; subst. simpl.
      rewrite list_lookup_insert_ne by done. by rewrite length_insert.
    + rewrite (get_api_client_not_installed w self tok Hself Hinst) in Hrun.
      by inversion Hrun; subst.
  - rewrite (get_api_client_dangling w self Hself) in Hrun.
    by inversion Hrun; subst.
Qed.

Lemma run_operation_frame w self op other :
  other <> self ->
  let w' := world_after (run_operation provider self op w) in
  heap w' !! other = heap w !! other /\
  length (heap w') = length (heap w) /\
  hostinger_api_installed w' = hostinger_api_installed w.
Proof.
  intros Hne w'. subst w'.
  destruct (_get_api_client self w) as [[[api|e] w1] t1] eqn:H1.
  - destruct (run_operation_obtained provider w self op api w1 t1 H1)
      as (r & p & t & -> & _).
    exact (get_api_client_frame w self _ w1 t1 other H1 Hne).
  - destruct (run_operation_no_client provider w self op e w1 t1 H1)
      as (r & t & -> & _).
    done.
Qed.

End Isolation.

(** X13.  Whatever sequence of [add_txt_record] and [del_txt_record]
    operations runs on one [_HostingerClient], every other client object is
    left exactly as it was, no object is allocated or freed, and the
    installation is not touched. *)
Theorem operations_leave_other_clients {P} (provider : Provider P) (w : World P)
    (self other : nat) (ops : list operation) :
  other <> self ->
  let w' := (run_operations provider self ops w).1 in
  heap w' !! other = heap w !! other /\
  length (heap w') = length (heap w) /\
  hostinger_api_installed w' = hostinger_api_installed w.
Proof.
  intros Hne. revert w. induction ops as [|op ops IH]; intros w; simpl; [done |].
  pose proof (run_operation_frame provider w self op other Hne) as Hop.
  destruct (run_operation provider self op w) as [[r w1] t1].
  unfold world_after in Hop. simpl in Hop.
  specialize (IH w1).
  destruct (run_operations provider self ops w1) as [w2 t2]. simpl in *.
  destruct Hop as (H1 & H2 & H3). destruct IH as (I1 & I2 & I3).
  repeat split; congruence.
Qed.

Lemma operations_leave_other_clients_witness :
  let w := mkWorld example_zone true
             [mkClient "first" None; mkClient "second" None] 0 in
  heap (run_operations Stub.provider 0
          [Create "bbdevs.com" "_acme-challenge.bbdevs.com" "content" 60;
           Destroy "bbdevs.com" "_acme-challenge.bbdevs.com" "content"] w).1 !! 1%nat =
    Some (mkClient "second" None).
Proof.
  intros w.
  exact (proj1 (operations_leave_other_clients Stub.provider w 0 1
           [Create "bbdevs.com" "_acme-challenge.bbdevs.com" "content" 60;
            Destroy "bbdevs.com" "_acme-challenge.bbdevs.com" "content"]
           ltac:(discriminate))).
Defined.

(** ** The zone after the operations, in memory *)

Lemma stub_delete_is_others (tok zone name : string) (s : Stub.state) :
  (Stub.delete_records tok zone (mkDestroy [mkFilter name "TXT"]) s).2 =
  Stub.others zone name s.
Proof.
  unfold Stub.delete_records, Stub.others. simpl.
  apply List.filter_ext. intros [z r]. simpl.
  unfold Stub.filter_matches. simpl. by rewrite orb_false_r, andb_assoc.
Qed.

Lemma stub_txt_at_others (zone name : string) (s : Stub.state) :
  Stub.txt_at zone name (Stub.others zone name s) = [].
Proof.
  rewrite <- (stub_delete_is_others "" zone name s). apply stub_txt_at_deleted.
Qed.

Lemma stub_others_idem (zone name : string) (s : Stub.state) :
  Stub.others zone name (Stub.others zone name s) = Stub.others zone name s.
Proof. unfold Stub.others. by apply filter_filter_same. Qed.

Lemma stub_others_no_txt (zone name : string) (s : Stub.state) :
  Stub.txt_at zone name s = [] -> Stub.others zone name s = s.
Proof.
  unfold Stub.txt_at, Stub.records_of, Stub.others.
  induction s as [|[z r] s IH]; [done |]. simpl.
  destruct (String.eqb z zone) eqn:Hz; simpl.
  - destruct (String.eqb (rr_name r) name && String.eqb (rr_type r) "TXT") eqn:Hr.
    + done.
    + simpl. intros H. by rewrite (IH H).
  - intros H. by rewrite (IH H).
Qed.

Lemma stub_del_txt_record (w : World Stub.state) (self : nat)
    (domain record_name record_content : string)
    (api : DNSZoneApi) (w1 : World Stub.state) (t1 : list event) :
  let zone := zone_of domain in
  let name := subdomain_of record_name zone in
  _get_api_client self w = (Return api, w1, t1) ->
  hostinger_api_installed w = true ->
  exists t,
    del_txt_record Stub.provider self domain record_name record_content w =
      (Return tt, set_remote (Stub.others zone name (remote w)) w1, t).
Proof.
  intros zone name H1 Hinst.
  destruct (del_txt_record_called Stub.provider w self domain record_name
              record_content api w1 t1 _ _ H1 Hinst eq_refl) as (t & Hrun & _).
  exists t. rewrite <- (stub_delete_is_others (access_token api) zone name (remote w)).
  exact Hrun.
Qed.

(** X14.  Against the in-memory provider, for a client that exists and with
    the package installed, [del_txt_record] returns normally, removes every
    TXT record of the relative name in the zone and nothing else, and a
    second [del_txt_record] leaves the records as the first one left them. *)
Theorem del_txt_record_in_memory (w : World Stub.state) (self : nat)
    (c : HostingerClient) (domain record_name record_content : string) :
  let zone := zone_of domain in
  let name := subdomain_of record_name zone in
  let once := del_txt_record Stub.provider self domain record_name record_content w in
  let twice :=
    del_txt_record Stub.provider self domain record_name record_content
      (world_after once) in
  heap w !! self = Some c ->
  hostinger_api_installed w = true ->
  result once = Return tt /\
  remote (world_after once) = Stub.others zone name (remote w) /\
  Stub.txt_at zone name (remote (world_after once)) = [] /\
  remote (world_after twice) = remote (world_after once).
Proof.
  intros zone name once twice Hself Hinst. subst twice once.
  destruct (get_api_client_total w self c Hself Hinst) as (api & w1 & t1 & H1).
  destruct (stub_del_txt_record w self domain record_name record_content
              api w1 t1 H1 Hinst) as (t & Hrun).
  destruct (get_api_client_Return w self api w1 t1 H1)
    as (_ & Hinst1 & _ & (tok & Hself1) & _).
  rewrite Hinst in Hinst1. fold zone in Hrun. fold name in Hrun. rewrite Hrun.
  change (world_after (Return tt, set_remote (Stub.others zone name (remote w)) w1, t))
    with (set_remote (Stub.others zone name (remote w)) w1).
  set (w2 := set_remote (Stub.others zone name (remote w)) w1).
  pose proof (get_api_client_cached w2 self tok api Hself1) as H2.
  destruct (stub_del_txt_record w2 self domain record_name record_content
              api _ _ H2 Hinst1) as (t' & Hrun').
  rewrite Hrun'. unfold world_after, result. simpl.
  split; [done |]. split; [done |]. split.
  - apply stub_txt_at_others.
  - apply stub_others_idem.
Qed.

Lemma del_txt_record_in_memory_witness :
  remote (world_after (del_txt_record Stub.provider 0 "bbdevs.com"
                         "_acme-challenge.bbdevs.com" "content"
                         (client_world example_zone))) =
    [("bbdevs.com", mkDnsRecord "@" "A" "192.0.2.1" 3600);
     ("bbdevs.com", mkDnsRecord "www" "CNAME" "bbdevs.com" 3600)].
Proof.
  exact (proj1 (proj2 (del_txt_record_in_memory (client_world example_zone) 0
           (mkClient "test_token_123456789" None) "bbdevs.com"
           "_acme-challenge.bbdevs.com" "content" eq_refl eq_refl))).
Defined.

(** X10.  Against the in-memory provider, on an authenticator with
    credentials and with the package installed, [_perform] followed by
    [_cleanup] with the same arguments both return normally and leave the
    zone without any TXT record of the relative name and with every other
    record in place; when the zone had no such TXT record to begin with, the
    provider's records are exactly what they were. *)
Theorem perform_then_cleanup (w : World Stub.state) (self : Authenticator)
    (creds : CredentialsConfiguration)
    (domain validation_name validation : string) :
  let zone := zone_of domain in
  let name := subdomain_of validation_name zone in
  let created := _perform Stub.provider self domain validation_name validation w in
  let destroyed :=
    _cleanup Stub.provider self domain validation_name validation
      (world_after created) in
  credentials self = Some creds ->
  hostinger_api_installed w = true ->
  result created = Return tt /\
  Stub.txt_at zone name (remote (world_after created)) =
    [mkDnsRecord name "TXT" validation (auth_ttl self)] /\
  result destroyed = Return tt /\
  remote (world_after destroyed) = Stub.others zone name (remote w) /\
  (Stub.txt_at zone name (remote w) = [] -> remote (world_after destroyed) = remote w).
Proof.
  intros zone name created destroyed Hcreds Hinst. subst destroyed created.
  (* the create hook *)
  destruct (perform_run Stub.provider w self creds domain validation_name validation
              Hcreds) as (Hr1 & Hw1 & _).
  pose proof (new_client_first_use w (conf creds "api-token") Hinst) as H1.
  destruct (stub_add_txt_record _ (length (heap w)) domain validation_name validation
              (auth_ttl self) _ _ _ H1 Hinst) as (t & Hadd).
  rewrite Hadd in Hr1, Hw1. unfold result in Hr1 at 2. unfold world_after in Hw1 at 2.
  simpl in Hr1, Hw1. fold zone in Hw1. fold name in Hw1.
  rewrite Hr1, Hw1.
  set (s1 := stub_after_add zone name validation (auth_ttl self) (remote w)).
  set (wc := set_remote s1 _).
  (* the destroy hook *)
  destruct (cleanup_run Stub.provider wc self creds domain validation_name validation
              Hcreds) as (Hr2 & Hw2 & _).
  assert (hostinger_api_installed wc = true) as Hinstc by exact Hinst.
  pose proof (new_client_first_use wc (conf creds "api-token") Hinstc) as H2.
  destruct (stub_del_txt_record _ (length (heap wc)) domain validation_name validation
              _ _ _ H2 Hinstc) as (t' & Hdel).
  rewrite Hdel in Hr2, Hw2. unfold result in Hr2 at 2. unfold world_after in Hw2 at 2.
  simpl in Hr2, Hw2. fold zone in Hw2. fold name in Hw2.
  rewrite Hr2, Hw2. simpl.
  assert (Stub.others zone name s1 = Stub.others zone name (remote w)) as Hothers
    by apply stub_others_after_add.
  split; [done |]. split; [apply stub_txt_at_after_add |].
  split; [done |]. split; [exact Hothers |].
  intros Hnone. rewrite Hothers. by apply stub_others_no_txt.
Qed.

Lemma perform_then_cleanup_witness :
  let w := fresh_world [("bbdevs.com", mkDnsRecord "@" "A" "192.0.2.1" 3600)] in
  let created :=
    _perform Stub.provider (prepared "test_token_123456789") "bbdevs.com"
      "_acme-challenge.bbdevs.com" "content" w in
  remote (world_after
            (_cleanup Stub.provider (prepared "test_token_123456789") "bbdevs.com"
               "_acme-challenge.bbdevs.com" "content" (world_after created))) =
    remote w.
Proof.
  intros w created.
  exact (proj2 (proj2 (proj2 (proj2 (perform_then_cleanup w
           (prepared "test_token_123456789") _ "bbdevs.com"
           "_acme-challenge.bbdevs.com" "content" eq_refl eq_refl)))) eq_refl).
Defined.

(** X15.  Against the provider whose delete fails while listing and update
    work, when the zone already holds TXT records of the relative name,
    [add_txt_record] still returns normally; the stale records stay and the
    new record is added after them. *)
Theorem failed_cleanup_keeps_stale_records (w : World Faulty.state) (self : nat)
    (c : HostingerClient) (records : Stub.state)
    (domain record_name record_content : string) (ttl : Z) :
  let zone := zone_of domain in
  let name := subdomain_of record_name zone in
  let plan := Faulty.mkPlan false true false in
  let run :=
    add_txt_record Faulty.provider self domain record_name record_content ttl w in
  heap w !! self = Some c ->
  hostinger_api_installed w = true ->
  remote w = (records, plan) ->
  Stub.txt_at zone name records <> [] ->
  result run = Return tt /\
  remote (world_after run) =
    (records ++ [(zone, mkDnsRecord name "TXT" record_content ttl)], plan) /\
  Stub.txt_at zone name (remote (world_after run)).1 =
    Stub.txt_at zone name records ++ [mkDnsRecord name "TXT" record_content ttl].
Proof.
  intros zone name plan run Hself Hinst Hrem Hstale. subst run.
  destruct (get_api_client_total w self c Hself Hinst) as (api & w1 & t1 & H1).
  assert (get_dns_records_v1 Faulty.provider (access_token api) zone (remote w) =
            (Return (Stub.records_of zone records), (records, plan))) as Hget
    by (by rewrite Hrem).
  destruct (add_txt_record_conflict Faulty.provider w self domain record_name
              record_content ttl api w1 t1 _ _
              (Raise (Exception "API Error")) (records, plan)
              (Return tt)
              (records ++ [(zone, mkDnsRecord name "TXT" record_content ttl)], plan)
              H1 Hinst Hget Hstale eq_refl eq_refl) as (t & -> & _).
  unfold result, world_after. simpl.
  split; [done |]. split; [done |].
  rewrite stub_txt_at_app. f_equal.
  unfold Stub.txt_at, Stub.records_of. simpl.
  rewrite String.eqb_refl. simpl. by rewrite String.eqb_refl.
Qed.

Lemma failed_cleanup_keeps_stale_records_witness :
  Stub.txt_at "bbdevs.com" "_acme-challenge"
    (remote (world_after
       (add_txt_record Faulty.provider 0 "bbdevs.com" "_acme-challenge.bbdevs.com"
          "new-content" 300
          (client_world (example_zone, Faulty.mkPlan false true false))))).1 =
    [mkDnsRecord "_acme-challenge" "TXT" "old-challenge-content" 300;
     mkDnsRecord "_acme-challenge" "TXT" "new-content" 300].
Proof.
  exact (proj2 (proj2 (failed_cleanup_keeps_stale_records
           (client_world (example_zone, Faulty.mkPlan false true false)) 0
           (mkClient "test_token_123456789" None) example_zone "bbdevs.com"
           "_acme-challenge.bbdevs.com" "new-content" 300
           eq_refl eq_refl eq_refl ltac:(discriminate)))).
Defined.

(** ** More on the hooks and on what escapes *)

(** X16.  On an authenticator with credentials and with the package
    installed, [_cleanup] issues exactly one request, whatever the provider
    answers: the delete by relative name and type TXT on the zone of the
    domain, through an API client that is new and carries the token of the
    credentials. *)
Theorem cleanup_requests {P} (provider : Provider P) (w : World P)
    (self : Authenticator) (creds : CredentialsConfiguration)
    (domain validation_name validation : string) :
  let zone := zone_of domain in
  let name := subdomain_of validation_name zone in
  let api := mkApi (api_built w) (conf creds "api-token") in
  credentials self = Some creds ->
  hostinger_api_installed w = true ->
  calls (events (_cleanup provider self domain validation_name validation w)) =
    [(api, delete_by_filter zone name)].
Proof.
  intros zone name api Hcreds Hinst.
  destruct (cleanup_run provider w self creds domain validation_name validation
              Hcreds) as (_ & _ & ->).
  pose proof (new_client_first_use w (conf creds "api-token") Hinst) as H1.
  exact (del_txt_record_calls provider _ (length (heap w)) domain validation_name
           validation api _ _ H1 Hinst).
Qed.

Lemma cleanup_requests_witness :
  calls (events (_cleanup Faulty.provider (prepared "test_token_123456789")
                   "sso.bbdevs.com" "_acme-challenge.sso.bbdevs.com" "tok123"
                   (fresh_world (example_zone, Faulty.mkPlan false true false)))) =
    [(mkApi 0 "test_token_123456789",
      delete_by_filter "bbdevs.com" "_acme-challenge.sso")].
Proof.
  exact (cleanup_requests Faulty.provider
           (fresh_world (example_zone, Faulty.mkPlan false true false))
           (prepared "test_token_123456789") _ "sso.bbdevs.com"
           "_acme-challenge.sso.bbdevs.com" "tok123" eq_refl eq_refl).
Defined.

(** X17.  On an authenticator with credentials and with the package
    installed, each of [_perform] and [_cleanup] allocates exactly one
    [_HostingerClient], at the first free address, and constructs exactly one
    API client, which that object keeps, whatever the provider answers. *)
Theorem hooks_build_one_client_each {P} (provider : Provider P) (w : World P)
    (self : Authenticator) (creds : CredentialsConfiguration)
    (domain validation_name validation : string) :
  let token := conf creds "api-token" in
  let kept := mkClient token (Some (mkApi (api_built w) token)) in
  let created := world_after (_perform provider self domain validation_name validation w) in
  let destroyed := world_after (_cleanup provider self domain validation_name validation w) in
  credentials self = Some creds ->
  hostinger_api_installed w = true ->
  (api_built created = S (api_built w) /\
   length (heap created) = S (length (heap w)) /\
   heap created !! length (heap w) = Some kept) /\
  (api_built destroyed = S (api_built w) /\
   length (heap destroyed) = S (length (heap w)) /\
   heap destroyed !! length (heap w) = Some kept).
Proof.
  intros token kept created destroyed Hcreds Hinst.
  subst created destroyed kept token.
  pose proof (new_client_first_use w (conf creds "api-token") Hinst) as H1.
  assert (forall (h : list HostingerClient) (c c' : HostingerClient),
            length (<[length h := c']> (h ++ [c])) = S (length h) /\
            <[length h := c']> (h ++ [c]) !! length h = Some c') as Hheap.
  { intros h c c'. rewrite length_insert, length_app. simpl. split; [lia |].
    apply list_lookup_insert_eq. rewrite length_app. simpl. lia. }
  split.
  - destruct (perform_run provider w self creds domain validation_name validation
                Hcreds) as (_ & -> & _).
    destruct (add_txt_record_obtained provider _ (length (heap w)) domain
                validation_name validation (auth_ttl self) _ _ _ H1)
      as (r & p & t & -> & _).
    unfold world_after. simpl. split; [done |]. apply Hheap.
  - destruct (cleanup_run provider w self creds domain validation_name validation
                Hcreds) as (_ & -> & _).
    destruct (del_txt_record_obtained provider _ (length (heap w)) domain
                validation_name validation _ _ _ H1) as (p & t & -> & _).
    unfold world_after. simpl. split; [done |]. apply Hheap.
Qed.

Lemma hooks_build_one_client_each_witness :
  api_built (world_after (_perform Stub.provider (prepared "test_token_123456789")
                            "bbdevs.com" "_acme-challenge.bbdevs.com" "content"
                            (fresh_world example_zone))) = 1%nat.
Proof.
  exact (proj1 (proj1 (hooks_build_one_client_each Stub.provider
           (fresh_world example_zone) (prepared "test_token_123456789") _
           "bbdevs.com" "_acme-challenge.bbdevs.com" "content" eq_refl eq_refl))).
Defined.

Lemma add_txt_record_wrapped {P} (provider : Provider P) (w : World P) (self : nat)
    (domain record_name record_content : string) (ttl : Z) :
  let r := result (add_txt_record provider self domain record_name record_content
                     ttl w) in
  r = Return tt \/ exists e, r = Raise (add_error e).
Proof.
  intros r. subst r.
  destruct (_get_api_client self w) as [[[api|e] w1] t1] eqn:H1.
  - destruct (hostinger_api_installed w) eqn:Hinst.
    + destruct (get_dns_records_v1 provider (access_token api) (zone_of domain)
                  (remote w)) as [[zone_records|e] p1] eqn:Hget.
      * set (name := subdomain_of record_name (zone_of domain)).
        destruct (Py.truthy (existing_acme name zone_records)) eqn:Hex.
        -- apply truthy_true in Hex.
           destruct (delete_dns_records_v1 provider (access_token api)
                       (zone_of domain) (mkDestroy [mkFilter name "TXT"]) p1)
             as [rd p2] eqn:Hdel.
           destruct (update_dns_records_v1 provider (access_token api)
                       (zone_of domain)
                       (mkUpdate [mkZoneInner name "TXT" ttl
                                    [mkContent record_content]] false) p2)
             as [ru p3] eqn:Hupd.
           destruct (add_txt_record_conflict provider w self domain record_name
                       record_content ttl api w1 t1 zone_records p1 rd p2 ru p3
                       H1 Hinst Hget Hex Hdel Hupd) as (t & -> & _).
           destruct ru as [[]|e]; [by left | right; by exists e].
        -- apply truthy_false in Hex.
           destruct (update_dns_records_v1 provider (access_token api)
                       (zone_of domain)
                       (mkUpdate [mkZoneInner name "TXT" ttl
                                    [mkContent record_content]] false) p1)
             as [ru p3] eqn:Hupd.
           destruct (add_txt_record_no_conflict provider w self domain record_name
                       record_content ttl api w1 t1 zone_records p1 ru p3
                       H1 Hinst Hget Hex Hupd) as (t & -> & _).
           destruct ru as [[]|e]; [by left | right; by exists e].
      * destruct (add_txt_record_list_fails provider w self domain record_name
                    record_content ttl api w1 t1 e p1 H1 Hinst Hget)
          as (t & -> & _).
        right. by exists e.
    + destruct (add_txt_record_no_models provider w self domain record_name
                  record_content ttl api w1 t1 H1 Hinst) as (t & -> & _).
      right. by eexists.
  - rewrite (add_txt_record_no_client provider w self domain record_name
               record_content ttl e w1 t1 H1).
    right. by exists e.
Qed.

(** X18.  [add_txt_record] either returns normally or raises
    [errors.PluginError] whose message is the fixed prefix followed by the
    text of the original exception and whose cause is that exception: no
    other kind of exception leaves it, whatever the provider and the world;
    the same holds for [_perform] on an authenticator that has credentials. *)
Theorem only_plugin_errors_escape {P} (provider : Provider P) (w : World P)
    (self : nat) (creds : CredentialsConfiguration) (ttl0 : Z)
    (domain record_name record_content : string) (ttl : Z) :
  let wrapped (r : outcome unit) :=
    r = Return tt \/
    exists e, r = Raise (errors_PluginError
                           ("Encountered error adding TXT record: " +:+ str_of_exn e) e) in
  wrapped (result (add_txt_record provider self domain record_name record_content
                     ttl w)) /\
  wrapped (result (_perform provider (mkAuthenticator (Some creds) ttl0) domain
                     record_name record_content w)).
Proof.
  intros wrapped. split.
  - apply add_txt_record_wrapped.
  - destruct (perform_run provider w (mkAuthenticator (Some creds) ttl0) creds
                domain record_name record_content eq_refl) as (-> & _).
    apply add_txt_record_wrapped.
Qed.
